(** * FleetStatus: metrics, derived fields and data merge

    A shallow embedding of the computation layer of the fleet dashboard
    ([src/dashboard.py]) and of the repair-order page
    ([src/repair_orders.py]): record normalisation, the days-open
    calculation, the summary metrics, alert generation and the vehicle
    join.  The Python and pandas primitives these functions call are
    modelled first; the functions of the repository follow, with the names
    they have in the source. *)

From Stdlib Require Import ZArith NArith QArith List String Ascii Bool Lia.
Import ListNotations.

Set Warnings "-register-all".

(** ** Python values, exceptions and the built-ins the source calls *)

Module Py.

Local Open Scope string_scope.

(** A Python [float].  Finite values are kept as exact rationals: rounding
    to binary64 is not modelled (no statement below depends on it). *)
Inductive float :=
| Finite (q : Q)
| Inf (negative : bool)
| NaN.

(** The values a decoded JSON payload, a dict literal of the source or a
    DataFrame cell can hold. *)
Inductive value :=
| VNone
| VBool (b : bool)
| VInt (z : Z)
| VFloat (x : float)
| VStr (s : string)
| VList (l : list value)
| VDict (d : list (string * value)).

(** The exception classes that occur.  All of them derive from
    [Exception]; [JSONDecodeError] derives from [ValueError]. *)
Inductive exn :=
| TypeError
| ValueError
| JSONDecodeError
| KeyError (key : string)
| AttributeError (attr : string)
| OverflowError
| RequestException.

Definition is_ValueError (e : exn) : bool :=
  match e with
  | ValueError | JSONDecodeError => true
  | _ => false
  end.

(** A computation that returns or raises. *)
Inductive outcome (A : Type) :=
| Ok (a : A)
| Raise (e : exn).
Arguments Ok {A} a.
Arguments Raise {A} e.

Definition bind {A B} (m : outcome A) (k : A -> outcome B) : outcome B :=
  match m with
  | Ok a => k a
  | Raise e => Raise e
  end.

Fixpoint mapM {A B} (f : A -> outcome B) (l : list A) : outcome (list B) :=
  match l with
  | [] => Ok []
  | x :: l' => bind (f x) (fun y => bind (mapM f l') (fun ys => Ok (y :: ys)))
  end.

(** *** Characters and strings *)

Definition chars (s : string) : list ascii := list_ascii_of_string s.
Definition text (cs : list ascii) : string := string_of_list_ascii cs.

Definition code (c : ascii) : N := N_of_ascii c.

Definition is_digit (c : ascii) : bool :=
  ((48 <=? code c) && (code c <=? 57))%N.

Definition digit_val (c : ascii) : option Z :=
  if is_digit c then Some (Z.of_N (code c) - 48)%Z else None.

(** ASCII white space as [str.strip] and [float] see it. *)
Definition is_space (c : ascii) : bool :=
  ((code c =? 32) || ((9 <=? code c) && (code c <=? 13)))%N.

Definition lower (c : ascii) : ascii :=
  if ((65 <=? code c) && (code c <=? 90))%N
  then ascii_of_N (code c + 32) else c.

Fixpoint lstrip_by (p : ascii -> bool) (cs : list ascii) : list ascii :=
  match cs with
  | c :: cs' => if p c then lstrip_by p cs' else cs
  | [] => []
  end.

Definition rstrip_by (p : ascii -> bool) (cs : list ascii) : list ascii :=
  rev (lstrip_by p (rev cs)).

(** [s.rstrip(set)]: every trailing character that belongs to [set] is
    removed, not just one. *)
Definition rstrip (s set : string) : string :=
  text (rstrip_by (fun c => existsb (Ascii.eqb c) (chars set)) (chars s)).

(** [sep.join(items)] on strings. *)
Fixpoint join (sep : string) (items : list string) : string :=
  match items with
  | [] => EmptyString
  | [x] => x
  | x :: rest => x ++ sep ++ join sep rest
  end.

(** Decimal digits of a natural number, most significant first. *)
Fixpoint digits_fuel (fuel : nat) (n : N) (acc : list ascii) : list ascii :=
  match fuel with
  | O => acc
  | S fuel' =>
    let acc' := ascii_of_N (48 + n mod 10) :: acc in
    if (n <? 10)%N then acc' else digits_fuel fuel' (n / 10) acc'
  end.

Definition str_nat (n : N) : string :=
  text (digits_fuel (S (N.to_nat (N.log2 n))) n []).

(** [str(z)] for an [int]. *)
Definition str_int (z : Z) : string :=
  if (z <? 0)%Z then "-" ++ str_nat (Z.to_N (- z)) else str_nat (Z.to_N z).

(** [f"{n:04d}"] for a non-negative [n]: zero padded to four digits. *)
Definition format_04d (n : N) : string :=
  let s := str_nat n in
  text (repeat "0"%char (4 - String.length s)) ++ s.

(** *** Numbers *)

Definition float_of_Z (z : Z) : float := Finite (inject_Z z).

(** [digit (["_"] digit)*]: the digits read and the rest of the input. *)
Fixpoint digitpart (cs : list ascii) : list Z * list ascii :=
  match cs with
  | [] => ([], [])
  | c :: rest =>
    match digit_val c with
    | None => ([], cs)
    | Some d =>
      match rest with
      | u :: rest' =>
        if Ascii.eqb u "_" && match rest' with c' :: _ => is_digit c' | [] => false end
        then let '(ds, r) := digitpart rest' in (d :: ds, r)
        else let '(ds, r) := digitpart rest in (d :: ds, r)
      | [] => ([d], [])
      end
    end
  end.

Definition of_digits (ds : list Z) : Z :=
  fold_left (fun acc d => 10 * acc + d)%Z ds 0%Z.

Definition read_sign (cs : list ascii) : bool * list ascii :=
  match cs with
  | c :: cs' =>
    if Ascii.eqb c "-" then (true, cs')
    else if Ascii.eqb c "+" then (false, cs')
    else (false, cs)
  | [] => (false, [])
  end.

(** The optional exponent, which must end the literal. *)
Definition read_exponent (cs : list ascii) : option Z :=
  match cs with
  | [] => Some 0%Z
  | c :: cs' =>
    if Ascii.eqb (lower c) "e" then
      let '(neg, cs'') := read_sign cs' in
      match digitpart cs'' with
      | ((_ :: _) as ds, []) => Some (if neg then - of_digits ds else of_digits ds)%Z
      | _ => None
      end
    else None
  end.

(** Mantissa digits and the number of them after the point. *)
Definition read_mantissa (cs : list ascii)
  : option (list Z * nat * list ascii) :=
  let '(ip, r) := digitpart cs in
  match r with
  | c :: r' =>
    if Ascii.eqb c "." then
      let '(fp, r'') := digitpart r' in
      match ip, fp with
      | [], [] => None
      | _, _ => Some ((ip ++ fp)%list, List.length fp, r'')
      end
    else match ip with [] => None | _ => Some (ip, O, r) end
  | [] => match ip with [] => None | _ => Some (ip, O, []) end
  end.

(** [float(s)] on text: white space is stripped, then an optional sign and
    [inf], [infinity], [nan] (any case) or a decimal literal.  [None]
    stands for [ValueError].  Only ASCII digits and white space are
    recognised. *)
Definition float_of_string (s : string) : option float :=
  let cs := rstrip_by is_space (lstrip_by is_space (chars s)) in
  let '(neg, body) := read_sign cs in
  let word := text (map lower body) in
  if (word =? "inf") || (word =? "infinity") then Some (Inf neg)
  else if word =? "nan" then Some NaN
  else
    match read_mantissa body with
    | None => None
    | Some (ds, nfrac, r) =>
      match read_exponent r with
      | None => None
      | Some e =>
        let m := if neg then (- of_digits ds)%Z else of_digits ds in
        Some (Finite (inject_Z m * Qpower (10 # 1) (e - Z.of_nat nfrac)))
      end
    end.

(** [float(v)]. An [int] too large for a double raises [OverflowError]. *)
Definition to_float (v : value) : outcome float :=
  match v with
  | VBool b => Ok (float_of_Z (if b then 1 else 0))
  | VInt z =>
    if (Z.abs z <? 2 ^ 1024 - 2 ^ 970)%Z then Ok (float_of_Z z)
    else Raise OverflowError
  | VFloat x => Ok x
  | VStr s =>
    match float_of_string s with
    | Some x => Ok x
    | None => Raise ValueError
    end
  | VNone | VList _ | VDict _ => Raise TypeError
  end.

(** [x > k] and [x < k] for a float [x] and an [int] literal [k];
    comparisons with [nan] are false. *)
Definition float_gt_int (x : float) (k : Z) : bool :=
  match x with
  | Finite q => negb (Qle_bool q (inject_Z k))
  | Inf negative => negb negative
  | NaN => false
  end.

Definition float_lt_int (x : float) (k : Z) : bool :=
  match x with
  | Finite q => negb (Qle_bool (inject_Z k) q)
  | Inf negative => negative
  | NaN => false
  end.

(** [v > k] and [v < k] for an [int] literal [k]: defined on [bool], [int]
    and [float]; every other operand type raises [TypeError]. *)
Definition gt_int (v : value) (k : Z) : outcome bool :=
  match v with
  | VBool b => Ok (k <? (if b then 1 else 0))%Z
  | VInt z => Ok (k <? z)%Z
  | VFloat x => Ok (float_gt_int x k)
  | _ => Raise TypeError
  end.

Definition lt_int (v : value) (k : Z) : outcome bool :=
  match v with
  | VBool b => Ok ((if b then 1 else 0) <? k)%Z
  | VInt z => Ok (z <? k)%Z
  | VFloat x => Ok (float_lt_int x k)
  | _ => Raise TypeError
  end.

(** [v == s] for a [str] literal [s]; never raises. *)
Definition eq_str (v : value) (s : string) : bool :=
  match v with
  | VStr t => t =? s
  | _ => false
  end.

(** Truth value of an object, as [not v] and [if v] test it. *)
Definition truthy (v : value) : bool :=
  match v with
  | VNone => false
  | VBool b => b
  | VInt z => negb (z =? 0)%Z
  | VFloat (Finite q) => negb (Qeq_bool q 0)
  | VFloat _ => true
  | VStr s => negb (s =? EmptyString)
  | VList l => match l with [] => false | _ => true end
  | VDict d => match d with [] => false | _ => true end
  end.

(** *** Dictionaries *)

Fixpoint lookup (d : list (string * value)) (k : string) : option value :=
  match d with
  | [] => None
  | (k', v) :: d' => if k' =? k then Some v else lookup d' k
  end.

(** [o.get(k, default)]; an object that is not a dict has no [get]. *)
Definition get (o : value) (k : string) (default : value) : outcome value :=
  match o with
  | VDict d =>
    Ok match lookup d k with Some v => v | None => default end
  | _ => Raise (AttributeError "get")
  end.

(** The items a [for] loop draws from an object. *)
Definition iterate (o : value) : outcome (list value) :=
  match o with
  | VList l => Ok l
  | VDict d => Ok (map (fun kv => VStr (fst kv)) d)
  | VStr s => Ok (map (fun c => VStr (String c EmptyString)) (chars s))
  | VNone | VBool _ | VInt _ | VFloat _ => Raise TypeError
  end.

(** [sep.join(l)] on a list object: every item must be a [str]. *)
Definition join_values (sep : string) (l : list value) : outcome string :=
  bind
    (mapM (fun v => match v with VStr s => Ok s | _ => Raise TypeError end) l)
    (fun items => Ok (join sep items)).

(** *** Logging and the monad of the functions that log

    A function of the source returns or raises, and leaves log records
    behind.  A record keeps the literal part of its f-string and, where the
    source interpolates [str(e)], the exception itself. *)

Inductive level := WARNING | ERROR.

Inductive effect :=
| Log (lvl : level) (msg : string) (cause : option exn)
| StError (msg : string) (cause : option exn).

Definition M (A : Type) : Type := outcome A * list effect.

Definition ret {A} (a : A) : M A := (Ok a, []).
Definition raise {A} (e : exn) : M A := (Raise e, []).
Definition lift {A} (m : outcome A) : M A := (m, []).
Definition emit (ev : effect) : M unit := (Ok tt, [ev]).

Definition bindM {A B} (m : M A) (k : A -> M B) : M B :=
  match m with
  | (Ok a, evs) => let '(r, evs') := k a in (r, (evs ++ evs')%list)
  | (Raise e, evs) => (Raise e, evs)
  end.

(** [try: body except <classes>: handler]. *)
Definition try_except {A} (body : M A) (catches : exn -> bool)
    (handler : exn -> M A) : M A :=
  match body with
  | (Raise e, evs) =>
    if catches e then let '(r, evs') := handler e in (r, (evs ++ evs')%list)
    else (Raise e, evs)
  | done => done
  end.

Definition result {A} (m : M A) : outcome A := fst m.
Definition effects {A} (m : M A) : list effect := snd m.

Definition is_warning (ev : effect) : bool :=
  match ev with
  | Log WARNING _ _ => true
  | _ => false
  end.

Notation "x <- m ; k" := (bind m (fun x => k))
  (at level 61, m at next level, right associativity).
Notation "'check' m ; k" := (bind m (fun _ => k))
  (at level 61, m at next level, right associativity).
Notation "x <~ m ; k" := (bindM m (fun x => k))
  (at level 61, m at next level, right associativity).
Notation "'exec' m ; k" := (bindM m (fun _ => k))
  (at level 61, m at next level, right associativity).

End Py.
Import Py.

(** ** [datetime]: parsing, subtraction and [timedelta] *)

Module DateTime.

Local Open Scope Z_scope.

(** [tzinfo] is the UTC offset in microseconds of an aware value and
    [None] for a naive one. *)
Record datetime := {
  year : Z; month : Z; day : Z;
  hour : Z; minute : Z; second : Z; microsecond : Z;
  tzinfo : option Z
}.

Record timedelta := { days : Z; seconds : Z; microseconds : Z }.

Definition _is_leap (y : Z) : bool :=
  (y mod 4 =? 0) && (negb (y mod 100 =? 0) || (y mod 400 =? 0)).

Definition _DAYS_IN_MONTH : list Z :=
  [31; 28; 31; 30; 31; 30; 31; 31; 30; 31; 30; 31].

Definition _days_in_month (y m : Z) : Z :=
  if (m =? 2) && _is_leap y then 29
  else nth (Z.to_nat (m - 1)) _DAYS_IN_MONTH 0.

Definition _days_before_year (y : Z) : Z :=
  let y' := y - 1 in y' * 365 + y' / 4 - y' / 100 + y' / 400.

Definition _days_before_month (y m : Z) : Z :=
  fold_right Z.add 0 (firstn (Z.to_nat (m - 1)) _DAYS_IN_MONTH)
  + (if (2 <? m) && _is_leap y then 1 else 0).

Definition _ymd2ord (y m d : Z) : Z :=
  _days_before_year y + _days_before_month y m + d.

Definition toordinal (dt : datetime) : Z :=
  _ymd2ord (year dt) (month dt) (day dt).

(** [timedelta(days, seconds, microseconds)]: the constructor carries
    microseconds into seconds and seconds into days with [divmod], so that
    [0 <= seconds < 86400] and [0 <= microseconds < 1000000]. *)
Definition make_timedelta (d s us : Z) : timedelta :=
  let s1 := s + us / 1000000 in
  {| days := d + s1 / 86400;
     seconds := s1 mod 86400;
     microseconds := us mod 1000000 |}.

Definition day_seconds (dt : datetime) : Z :=
  second dt + minute dt * 60 + hour dt * 3600.

(** [a - b] on two datetimes: naive with naive, or aware with aware; a
    naive and an aware operand raise [TypeError]. *)
Definition sub (a b : datetime) : outcome timedelta :=
  let base us :=
    make_timedelta (toordinal a - toordinal b)
                   (day_seconds a - day_seconds b)
                   (microsecond a - microsecond b + us) in
  match tzinfo a, tzinfo b with
  | None, None => Ok (base 0)
  | Some offa, Some offb => Ok (base (offb - offa))
  | _, _ => Raise TypeError
  end.

(** *** [datetime.fromisoformat] *)

Fixpoint read_digits (n : nat) (cs : list ascii) : option (Z * list ascii) :=
  match n with
  | O => Some (0, cs)
  | S n' =>
    match cs with
    | c :: cs' =>
      match digit_val c, read_digits n' cs' with
      | Some d, Some (v, r) => Some (d * 10 ^ Z.of_nat n' + v, r)
      | _, _ => None
      end
    | [] => None
    end
  end.

Definition expect (c : ascii) (cs : list ascii) : option (list ascii) :=
  match cs with
  | c' :: cs' => if Ascii.eqb c c' then Some cs' else None
  | [] => None
  end.

(** [YYYY-MM-DD] and the rest of the input. *)
Definition parse_isoformat_date (cs : list ascii)
  : option (Z * Z * Z * list ascii) :=
  match read_digits 4 cs with
  | Some (y, r1) =>
    match expect "-" r1 with
    | Some r2 =>
      match read_digits 2 r2 with
      | Some (m, r3) =>
        match expect "-" r3 with
        | Some r4 =>
          match read_digits 2 r4 with
          | Some (d, r5) => Some (y, m, d, r5)
          | None => None
          end
        | None => None
        end
      | None => None
      end
    | None => None
    end
  | None => None
  end.

(** [.fff] or [.ffffff], ending the input. *)
Definition parse_fraction (cs : list ascii) : option Z :=
  match List.length cs with
  | 3%nat =>
    match read_digits 3 cs with Some (v, _) => Some (v * 1000) | None => None end
  | 6%nat =>
    match read_digits 6 cs with Some (v, _) => Some v | None => None end
  | _ => None
  end.

(** [HH[:MM[:SS[.fff[fff]]]]], the whole of [cs]. *)
Definition parse_hh_mm_ss_ff (cs : list ascii) : option (Z * Z * Z * Z) :=
  match read_digits 2 cs with
  | None => None
  | Some (h, []) => Some (h, 0, 0, 0)
  | Some (h, r1) =>
    match expect ":" r1 with
    | None => None
    | Some r2 =>
      match read_digits 2 r2 with
      | None => None
      | Some (m, []) => Some (h, m, 0, 0)
      | Some (m, r3) =>
        match expect ":" r3 with
        | None => None
        | Some r4 =>
          match read_digits 2 r4 with
          | None => None
          | Some (s, []) => Some (h, m, s, 0)
          | Some (s, r5) =>
            match expect "." r5 with
            | None => None
            | Some r6 =>
              match parse_fraction r6 with
              | Some us => Some (h, m, s, us)
              | None => None
              end
            end
          end
        end
      end
    end
  end.

(** The time text up to the first sign, and the offset text from it. *)
Fixpoint split_offset (cs : list ascii) : list ascii * list ascii :=
  match cs with
  | [] => ([], [])
  | c :: cs' =>
    if Ascii.eqb c "+" || Ascii.eqb c "-" then ([], cs)
    else let '(t, o) := split_offset cs' in (c :: t, o)
  end.

(** [+HH:MM[:SS[.ffffff]]]: the offset in microseconds. *)
Definition parse_offset (cs : list ascii) : option Z :=
  match cs with
  | sign :: body =>
    let n := List.length body in
    if (Nat.eqb n 5 || Nat.eqb n 8 || Nat.eqb n 15)%bool then
      match parse_hh_mm_ss_ff body with
      | Some (h, m, s, us) =>
        let off := (h * 3600 + m * 60 + s) * 1000000 + us in
        Some (if Ascii.eqb sign "-" then - off else off)
      | None => None
      end
    else None
  | [] => None
  end.

(** The range checks of the [datetime] and [timezone] constructors. *)
Definition valid (dt : datetime) : bool :=
  (1 <=? year dt) && (year dt <=? 9999)
  && (1 <=? month dt) && (month dt <=? 12)
  && (1 <=? day dt) && (day dt <=? _days_in_month (year dt) (month dt))
  && (hour dt <? 24) && (minute dt <? 60) && (second dt <? 60)
  && match tzinfo dt with
     | Some off => Z.abs off <? 86400 * 1000000
     | None => true
     end.

(** [datetime.fromisoformat(s)] on the format that [isoformat()] emits,
    [YYYY-MM-DD[*HH[:MM[:SS[.fff[fff]]]][+HH:MM[:SS[.ffffff]]]]] with [*]
    any one character; every other text raises [ValueError].  (Python 3.11
    and later accept further ISO 8601 forms; the statements below that
    assume a successful parse do not depend on which texts succeed.) *)
Definition fromisoformat (s : string) : outcome datetime :=
  match parse_isoformat_date (chars s) with
  | None => Raise ValueError
  | Some (y, m, d, rest) =>
    let build h mi sec us tz :=
      let dt := {| year := y; month := m; day := d; hour := h;
                   minute := mi; second := sec; microsecond := us;
                   tzinfo := tz |} in
      if valid dt then Ok dt else Raise ValueError in
    match rest with
    | [] => build 0 0 0 0 None
    | _ :: tstr =>
      let '(t, o) := split_offset tstr in
      match parse_hh_mm_ss_ff t, o with
      | Some (h, mi, sec, us), [] => build h mi sec us None
      | Some (h, mi, sec, us), _ :: _ =>
        match parse_offset o with
        | Some off => build h mi sec us (Some off)
        | None => Raise ValueError
        end
      | None, _ => Raise ValueError
      end
    end
  end.

End DateTime.
Import DateTime.

(** ** pandas: the DataFrame operations the source uses *)

Module Pandas.

Local Open Scope string_scope.

(** A table: column labels and rows of cells, one cell per label.  Column
    dtypes are not modelled: a cell is the Python object itself, and a
    missing value is [nan]. *)
Record DataFrame := { columns : list string; data : list (list value) }.

Definition nan : value := VFloat NaN.

Definition mem (c : string) (cs : list string) : bool :=
  existsb (String.eqb c) cs.

Fixpoint uniq (seen l : list string) : list string :=
  match l with
  | [] => []
  | c :: l' => if mem c seen then uniq seen l' else c :: uniq (c :: seen) l'
  end.

(** [pd.DataFrame(records)] on a list of dicts: the columns are the keys in
    order of first appearance, a key absent from a record gives [nan].
    [pd.DataFrame([])] and [pd.DataFrame()] have no column and no row.
    The number of rows, their order and the column labels are those of
    pandas.  The cells are kept as the Python objects of the records: the
    conversion of a column to one dtype (a [None] or an [int] beside
    floats becomes a float) is not modelled, so a cell is that of pandas
    in a column of texts or of numbers of one kind. *)
Definition from_records (records : list (list (string * value))) : DataFrame :=
  let cols := uniq [] (List.concat (map (map fst) records)) in
  {| columns := cols;
     data := map (fun r => map (fun c => match lookup r c with
                                         | Some v => v
                                         | None => nan
                                         end) cols) records |}.

Definition no_frame : DataFrame := from_records [].

(** [len(df)] and [df.empty]: a frame is empty when either axis is. *)
Definition len (df : DataFrame) : nat := List.length (data df).

Definition empty (df : DataFrame) : bool :=
  match columns df, data df with
  | _ :: _, _ :: _ => false
  | _, _ => true
  end.

(** [len(...)] as the [int] object a dict entry holds. *)
Definition int_of_nat (n : nat) : value := VInt (Z.of_nat n).

Fixpoint index_of (c : string) (cs : list string) : option nat :=
  match cs with
  | [] => None
  | c' :: cs' =>
    if c' =? c then Some O
    else match index_of c cs' with Some i => Some (S i) | None => None end
  end.

(** [df[c]]: the cells of a column, [KeyError] when there is none. *)
Definition column (df : DataFrame) (c : string) : outcome (list value) :=
  match index_of c (columns df) with
  | Some i => Ok (map (fun r => nth i r nan) (data df))
  | None => Raise (KeyError c)
  end.

(** [row[c]] for a row that [iterrows] yields. *)
Definition item (cols : list string) (row : list value) (c : string)
  : outcome value :=
  match index_of c cols with
  | Some i => Ok (nth i row nan)
  | None => Raise (KeyError c)
  end.

Fixpoint select {A} (l : list A) (mask : list bool) : list A :=
  match l, mask with
  | x :: l', b :: mask' => if b then x :: select l' mask' else select l' mask'
  | _, _ => []
  end.

(** [df[mask]] with a boolean mask. *)
Definition where_ (df : DataFrame) (mask : list bool) : DataFrame :=
  {| columns := columns df; data := select (data df) mask |}.

(** [df[df[c] == s]] for a [str] literal [s]. *)
Definition where_eq (df : DataFrame) (c s : string) : outcome DataFrame :=
  col <- column df c;
  Ok (where_ df (map (fun v => eq_str v s) col)).

(** [df[df[c] < k]] for an [int] literal [k]. *)
Definition where_lt (df : DataFrame) (c : string) (k : Z) : outcome DataFrame :=
  col <- column df c;
  mask <- mapM (fun v => lt_int v k) col;
  Ok (where_ df mask).

(** *** Reductions *)

Definition fadd (x y : float) : float :=
  match x, y with
  | Finite a, Finite b => Finite (a + b)
  | NaN, _ | _, NaN => NaN
  | Inf a, Inf b => if Bool.eqb a b then Inf a else NaN
  | Inf a, Finite _ | Finite _, Inf a => Inf a
  end.

Definition fdiv_count (x : float) (n : nat) : float :=
  match x with
  | Finite a => Finite (a / inject_Z (Z.of_nat n))
  | other => other
  end.

(** The numbers of a column with the missing values skipped; text and
    containers among them raise [TypeError]. *)
Fixpoint numbers (cells : list value) : outcome (list float) :=
  match cells with
  | [] => Ok []
  | v :: rest =>
    match v with
    | VNone | VFloat NaN => numbers rest
    | VBool b => xs <- numbers rest; Ok (float_of_Z (if b then 1 else 0) :: xs)
    | VInt z => xs <- numbers rest; Ok (float_of_Z z :: xs)
    | VFloat x => xs <- numbers rest; Ok (x :: xs)
    | VStr _ | VList _ | VDict _ => Raise TypeError
    end
  end.

Definition fsum (xs : list float) : float :=
  fold_left fadd xs (Finite 0).

(** [Series.mean()]: [nan] when nothing is left to average. *)
Definition series_mean (cells : list value) : outcome value :=
  xs <- numbers cells;
  Ok match xs with
     | [] => nan
     | _ => VFloat (fdiv_count (fsum xs) (List.length xs))
     end.

Fixpoint integers (cells : list value) : option (list Z) :=
  match cells with
  | [] => Some []
  | VInt z :: rest =>
    match integers rest with Some zs => Some (z :: zs) | None => None end
  | _ => None
  end.

Fixpoint texts (cells : list value) : option (list string) :=
  match cells with
  | [] => Some []
  | VStr s :: rest =>
    match texts rest with Some l => Some (s :: l) | None => None end
  | _ => None
  end.

(** [Series.sum()]: an [int] for a column of ints, the concatenation for a
    column of text, a [float] otherwise. *)
Definition series_sum (cells : list value) : outcome value :=
  match integers cells, texts cells with
  | Some zs, _ => Ok (VInt (fold_left Z.add zs 0%Z))
  | None, Some l => Ok (VStr (String.concat EmptyString l))
  | None, None => xs <- numbers cells; Ok (VFloat (fsum xs))
  end.

(** *** [merge(how="left")] on one key *)

(** Key cells match when they are equal; missing keys match each other. *)
Definition key_eqb (a b : value) : bool :=
  match a, b with
  | (VNone | VFloat NaN), (VNone | VFloat NaN) => true
  | VBool x, VBool y => Bool.eqb x y
  | VInt x, VInt y => (x =? y)%Z
  | VInt x, VFloat (Finite q) | VFloat (Finite q), VInt x =>
    Qeq_bool (inject_Z x) q
  | VFloat (Finite p), VFloat (Finite q) => Qeq_bool p q
  | VFloat (Inf x), VFloat (Inf y) => Bool.eqb x y
  | VStr x, VStr y => x =? y
  | _, _ => false
  end.

Fixpoint drop_nth {A} (i : nat) (l : list A) : list A :=
  match i, l with
  | _, [] => []
  | O, _ :: l' => l'
  | S i', x :: l' => x :: drop_nth i' l'
  end.

Definition rename (overlap : list string) (suffix : string) (c : string)
  : string :=
  if mem c overlap then c ++ suffix else c.

(** [left.merge(right, left_on=lk, right_on=rk, how="left",
    suffixes=(ls, rs))]; [on=k] is [left_on=k, right_on=k].

    - a key label that is no column raises [KeyError] (the right key is
      looked up first);
    - when both keys have the same label the result keeps one key column
      (the left one when [left] has rows);
    - any other label that occurs on both sides is renamed with the
      suffixes, on both sides; with two empty suffixes that is a
      [ValueError];
    - every left row appears, in order, once per matching right row and
      once, padded with [nan], when no right row matches. *)
Definition merge (left right : DataFrame) (lk rk : string)
    (suffixes : string * string) : outcome DataFrame :=
  match index_of rk (columns right), index_of lk (columns left) with
  | None, _ => Raise (KeyError rk)
  | _, None => Raise (KeyError lk)
  | Some ri, Some li =>
    let same := lk =? rk in
    let drop_right := same && negb (Nat.eqb (len left) 0) in
    let drop_left := same && Nat.eqb (len left) 0 in
    let trim_l {A} (l : list A) := if drop_left then drop_nth li l else l in
    let trim_r {A} (l : list A) := if drop_right then drop_nth ri l else l in
    let lcols := trim_l (columns left) in
    let rcols := trim_r (columns right) in
    let overlap := filter (fun c => mem c rcols) lcols in
    let '(ls, rs) := suffixes in
    check match overlap with
          | _ :: _ =>
            if (ls =? EmptyString) && (rs =? EmptyString)
            then Raise ValueError else Ok tt
          | [] => Ok tt
          end;
    let padding := map (fun _ => nan) rcols in
    let joined l :=
      let k := nth li l nan in
      match filter (fun r => key_eqb k (nth ri r nan)) (data right) with
      | [] => [trim_l l ++ padding]
      | matches => map (fun r => trim_l l ++ trim_r r) matches
      end%list in
    Ok {| columns := (map (rename overlap ls) lcols
                      ++ map (rename overlap rs) rcols)%list;
          data := flat_map joined (data left) |}
  end.

End Pandas.
Import Pandas.

(** ** requests: what a call returns *)

Module Requests.

(** [response.json()] raises when the body is not JSON. *)
Record response := { status_code : Z; json : outcome value }.

(** [requests.get(...)]: a response, or an exception of the transport. *)
Definition reply : Type := outcome response.

End Requests.
Import Requests.

(** ** repair_orders.py *)

Module repair_orders.

Local Open Scope string_scope.

(** [FleetrockAPI._calculate_days_open].  [now] is what [datetime.now()]
    returns, a naive local time.  The source wraps the whole body in
    [try ... except ValueError]; only [fromisoformat] raises that class,
    and by then [created_date] is rebound to the stripped text, which is
    what the warning shows.  [rstrip] exists on [str] only. *)
Definition _calculate_days_open (now : datetime) (created_date : value)
  : M Z :=
  if negb (truthy created_date) then ret 0%Z
  else
    match created_date with
    | VStr s =>
      let created_date := rstrip s "Z" in
      try_except
        (created <~ lift (fromisoformat created_date);
         delta <~ lift (sub now created);
         ret (days delta))
        is_ValueError
        (fun _ =>
           exec emit (Log WARNING ("Invalid date format: " ++ created_date) None);
           ret 0%Z)
    | _ => raise (AttributeError "rstrip")
    end.

(** [", ".join(ro.get(k, [])) if isinstance(ro.get(k), list) else other]. *)
Definition joined_or (ro : value) (k : string) (other : outcome value)
  : outcome value :=
  v <- get ro k VNone;
  match v with
  | VList _ =>
    items <- get ro k (VList []);
    match items with
    | VList l => s <- join_values ", " l; Ok (VStr s)
    | _ => Raise TypeError
    end
  | _ => other
  end.

(** [float(ro.get(k, 0))]. *)
Definition float_field (ro : value) (k : string) : outcome value :=
  v <- get ro k (VInt 0);
  x <- to_float v;
  Ok (VFloat x).

(** The body of the loop of [fetch_repair_orders]: the dict built for one
    raw record [ro] when [n] records have been processed.  The entries are
    evaluated in the order of the dict literal. *)
Definition processed_ro (now : datetime) (n : nat) (ro : value)
  : M (list (string * value)) :=
  created_date <~ lift (get ro "created_date" (VStr EmptyString));
  due_date <~ lift (get ro "due_date" (VStr EmptyString));
  ro_number <~ lift (get ro "ro_number"
                       (VStr ("RO-" ++ format_04d (N.of_nat n + 1))));
  unit_number <~ lift (get ro "unit_number" (VStr EmptyString));
  vin <~ lift (get ro "vin" (VStr EmptyString));
  status <~ lift (get ro "status" (VStr "open"));
  priority <~ lift (get ro "priority" (VStr "medium"));
  days_open <~ _calculate_days_open now created_date;
  estimated_completion <~ lift (get ro "estimated_completion" (VStr EmptyString));
  description <~ lift (get ro "description" (VStr EmptyString));
  tasks <~ lift (joined_or ro "tasks" (get ro "tasks" (VStr EmptyString)));
  parts_needed <~ lift (joined_or ro "parts_needed" (Ok (VStr EmptyString)));
  total_cost <~ lift (float_field ro "total_cost");
  labor_hours <~ lift (float_field ro "labor_hours");
  parts_cost <~ lift (float_field ro "parts_cost");
  labor_cost <~ lift (float_field ro "labor_cost");
  technician <~ lift (get ro "technician" (VStr "Unassigned"));
  location <~ lift (get ro "location" (VStr "Main Shop"));
  customer_name <~ lift (get ro "customer_name" (VStr EmptyString));
  customer_contact <~ lift (get ro "customer_contact" (VStr EmptyString));
  notes <~ lift (get ro "notes" (VStr EmptyString));
  warranty <~ lift (get ro "warranty" (VBool false));
  ret [("ro_number", ro_number); ("unit_number", unit_number); ("vin", vin);
       ("status", status); ("priority", priority);
       ("created_date", created_date); ("due_date", due_date);
       ("days_open", VInt days_open);
       ("estimated_completion", estimated_completion);
       ("description", description); ("tasks", tasks);
       ("parts_needed", parts_needed); ("total_cost", total_cost);
       ("labor_hours", labor_hours); ("parts_cost", parts_cost);
       ("labor_cost", labor_cost); ("technician", technician);
       ("location", location); ("customer_name", customer_name);
       ("customer_contact", customer_contact); ("notes", notes);
       ("warranty", warranty)].

(** [for ro in ro_list: ... processed_ros.append(processed_ro)].  The
    clock is read while a record is processed: [now n] is its reading for
    the record at position [n]. *)
Fixpoint process_all (now : nat -> datetime) (ro_list : list value)
    (processed_ros : list (list (string * value)))
  : M (list (list (string * value))) :=
  match ro_list with
  | [] => ret processed_ros
  | ro :: rest =>
    let n := List.length processed_ros in
    row <~ processed_ro (now n) n ro;
    process_all now rest (processed_ros ++ [row])%list
  end.

Definition no_token (token : option string) : bool :=
  match token with
  | None => true
  | Some t => t =? EmptyString
  end.

(** The body of [FleetrockAPI.fetch_repair_orders], given [self.token]
    and what [requests.get] does: the function that the [st.cache_data]
    decorator wraps.  The wrapper, which hashes the arguments before the
    body runs, is outside the function and is not modelled. *)
Definition fetch_repair_orders (token : option string)
    (now : nat -> datetime) (http : reply) : M DataFrame :=
  if no_token token then ret no_frame
  else
    try_except
      (response <~ lift http;
       if (status_code response =? 200)%Z then
         data <~ lift (json response);
         ro_list <~ lift (get data "repair_orders" (VList []));
         items <~ lift (iterate ro_list);
         processed_ros <~ process_all now items [];
         ret (from_records processed_ros)
       else
         let msg := "Failed to fetch repair orders: "
                    ++ str_int (status_code response) in
         exec emit (Log ERROR msg None);
         exec emit (StError msg None);
         ret no_frame)
      (fun _ => true)
      (fun e =>
         exec emit (Log ERROR "Error fetching repair orders: " (Some e));
         exec emit (StError "Error fetching repair orders: " (Some e));
         ret no_frame).

(** The dict that [calculate_ro_metrics] returns. *)
Record ro_metrics := {
  total_ros : value;
  open_ros : value;
  closed_ros : value;
  pending_ros : value;
  avg_days_open : value;
  total_cost : value;
  avg_labor_hours : value;
  unassigned_ros : value
}.

Definition calculate_ro_metrics (df : DataFrame) : outcome ro_metrics :=
  if empty df then
    Ok {| total_ros := VInt 0; open_ros := VInt 0; closed_ros := VInt 0;
          pending_ros := VInt 0; avg_days_open := VInt 0;
          total_cost := VInt 0; avg_labor_hours := VInt 0;
          unassigned_ros := VInt 0 |}
  else
    opened <- where_eq df "status" "open";
    closed <- where_eq df "status" "closed";
    pending <- where_eq df "status" "pending";
    avg_days <- (selection <- where_eq df "status" "open";
                 if negb (empty selection) then
                   selection <- where_eq df "status" "open";
                   cells <- column selection "days_open";
                   series_mean cells
                 else Ok (VInt 0));
    costs <- column df "total_cost";
    cost <- series_sum costs;
    avg_hours <- (if negb (empty df) then
                    cells <- column df "labor_hours";
                    series_mean cells
                  else Ok (VInt 0));
    unassigned <- where_eq df "technician" "Unassigned";
    Ok {| total_ros := int_of_nat (len df);
          open_ros := int_of_nat (len opened);
          closed_ros := int_of_nat (len closed);
          pending_ros := int_of_nat (len pending);
          avg_days_open := avg_days;
          total_cost := cost;
          avg_labor_hours := avg_hours;
          unassigned_ros := int_of_nat (len unassigned) |}.

End repair_orders.

(** ** dashboard.py *)

Module dashboard.

Local Open Scope string_scope.

(** The [status] entry that [SamsaraAPI.fetch_vehicle_stats] derives from a
    stats payload [s]:
    ["moving" if s.get("speedMilesPerHour", 0) > 0
     else "idle" if s.get("engineState") == "Running" else "offline"]. *)
Definition status_of (s : value) : outcome string :=
  speed <- get s "speedMilesPerHour" (VInt 0);
  moving <- gt_int speed 0;
  if moving then Ok "moving"
  else
    engine <- get s "engineState" VNone;
    Ok (if eq_str engine "Running" then "idle" else "offline").

(** The dict appended for vehicle [vid] with stats payload [s]. *)
Definition stats_record (vid s : value) : outcome (list (string * value)) :=
  speed_mph <- get s "speedMilesPerHour" (VInt 0);
  fuel_percent <- get s "fuelPercent" (VInt 0);
  engine_hours <- get s "engineHours" (VInt 0);
  odometer_miles <- get s "odometerMiles" (VInt 0);
  status <- status_of s;
  Ok [("vehicle_id", vid); ("speed_mph", speed_mph);
      ("fuel_percent", fuel_percent); ("engine_hours", engine_hours);
      ("odometer_miles", odometer_miles); ("status", VStr status)].

(** [for vid in vehicle_ids]: one request per vehicle; an answer other
    than 200 is skipped. *)
Fixpoint stats_loop (http : value -> reply) (vehicle_ids : list value)
    (stats : list (list (string * value)))
  : outcome (list (list (string * value))) :=
  match vehicle_ids with
  | [] => Ok stats
  | vid :: rest =>
    response <- http vid;
    if (status_code response =? 200)%Z then
      s <- json response;
      record <- stats_record vid s;
      stats_loop http rest (stats ++ [record])%list
    else stats_loop http rest stats
  end.

(** The body of [SamsaraAPI.fetch_vehicle_stats], given what
    [requests.get] does for each vehicle. *)
Definition fetch_vehicle_stats (http : value -> reply)
    (vehicle_ids : list value) : M DataFrame :=
  try_except
    (stats <~ lift (stats_loop http vehicle_ids []);
     ret (from_records stats))
    (fun _ => true)
    (fun e =>
       exec emit (Log ERROR "Error fetching stats: " (Some e));
       ret no_frame).

(** The dict that [calculate_fleet_metrics] returns. *)
Record fleet_metrics := {
  total_vehicles : value;
  moving : value;
  idle : value;
  offline : value;
  avg_speed : value;
  total_engine_hours : value;
  low_fuel : value
}.

Definition calculate_fleet_metrics (vehicles_df stats_df : DataFrame)
  : outcome fleet_metrics :=
  if empty vehicles_df || empty stats_df then
    Ok {| total_vehicles := VInt 0; moving := VInt 0; idle := VInt 0;
          offline := VInt 0; avg_speed := VInt 0;
          total_engine_hours := VInt 0; low_fuel := VInt 0 |}
  else
    moving_rows <- where_eq stats_df "status" "moving";
    idle_rows <- where_eq stats_df "status" "idle";
    offline_rows <- where_eq stats_df "status" "offline";
    speeds <- column stats_df "speed_mph";
    speed <- series_mean speeds;
    hours <- column stats_df "engine_hours";
    total_hours <- series_sum hours;
    low <- where_lt stats_df "fuel_percent" 20;
    Ok {| total_vehicles := int_of_nat (len vehicles_df);
          moving := int_of_nat (len moving_rows);
          idle := int_of_nat (len idle_rows);
          offline := int_of_nat (len offline_rows);
          avg_speed := speed;
          total_engine_hours := total_hours;
          low_fuel := int_of_nat (len low) |}.

(** The four merges of [main], in the order of the source. *)
Definition merge_data (vehicles_df stats_df locations_df assignments_df
                       drivers_df : DataFrame) : outcome DataFrame :=
  merged_df <- merge vehicles_df stats_df "id" "vehicle_id" ("_x", "_y");
  merged_df <- merge merged_df locations_df "id" "vehicle_id" ("_x", "_y");
  merged_df <- merge merged_df assignments_df "vehicle_id" "vehicle_id"
                     ("_x", "_y");
  merge merged_df drivers_df "driver_id" "id" (EmptyString, "_driver").

Section Alerts.

(** [str(v)] as an f-string interpolates it.  The text of a [float] and of
    a container is Python's own and is taken as given. *)
Variable str_other : value -> string.

Definition str (v : value) : string :=
  match v with
  | VStr s => s
  | VInt z => str_int z
  | VBool b => if b then "True" else "False"
  | VNone => "None"
  | other => str_other other
  end.

Definition speeding_alert (vehicle_id speed_mph : value) : string :=
  "Vehicle " ++ str vehicle_id ++ ": Speeding (" ++ str speed_mph ++ " mph)".

Definition low_fuel_alert (vehicle_id fuel_percent : value) : string :=
  "Vehicle " ++ str vehicle_id ++ ": Low fuel (" ++ str fuel_percent ++ "%)".

(** [for _, row in stats_df.iterrows()], with the list [alerts] that it
    appends to. *)
Fixpoint alerts_loop (cols : list string) (rows : list (list value))
    (alerts : list string) : outcome (list string) :=
  match rows with
  | [] => Ok alerts
  | row :: rest =>
    speed <- item cols row "speed_mph";
    speeding <- gt_int speed 80;
    alerts <- (if speeding then
                 vehicle_id <- item cols row "vehicle_id";
                 speed_mph <- item cols row "speed_mph";
                 Ok (alerts ++ [speeding_alert vehicle_id speed_mph])%list
               else Ok alerts);
    fuel <- item cols row "fuel_percent";
    low <- lt_int fuel 20;
    alerts <- (if low then
                 vehicle_id <- item cols row "vehicle_id";
                 fuel_percent <- item cols row "fuel_percent";
                 Ok (alerts ++ [low_fuel_alert vehicle_id fuel_percent])%list
               else Ok alerts);
    alerts_loop cols rest alerts
  end.

Definition generate_alerts (stats_df : DataFrame) : outcome (list string) :=
  alerts_loop (columns stats_df) (data stats_df) [].

End Alerts.

End dashboard.

(** ** dashboard.py: the other fetchers of [SamsaraAPI]

    Each fetcher is the body of the method, the function that the
    [st.cache_data] decorator wraps: what it computes from the replies of
    [requests.get].  The wrapper is not modelled. *)

Module samsara.

Import dashboard.

Local Open Scope string_scope.

(** [response.raise_for_status()]: a 4xx or 5xx status raises [HTTPError],
    which is a [RequestException]. *)
Definition raise_for_status (r : response) : outcome unit :=
  if ((400 <=? status_code r) && (status_code r <? 600))%Z
  then Raise RequestException else Ok tt.

(** [o[k]] for a [str] key [k]: only a dict can be indexed by text. *)
Definition subscript (o : value) (k : string) : outcome value :=
  match o with
  | VDict d =>
    match lookup d k with
    | Some v => Ok v
    | None => Raise (KeyError k)
    end
  | _ => Raise TypeError
  end.

(** The dict appended for one raw vehicle [v]; [v.get(k)] defaults to
    [None]. *)
Definition vehicle_record (v : value) : outcome (list (string * value)) :=
  id <- get v "id" VNone;
  name <- get v "name" VNone;
  vin <- get v "vin" VNone;
  make <- get v "make" VNone;
  model <- get v "model" VNone;
  year <- get v "year" VNone;
  license_plate <- get v "licensePlate" VNone;
  serial <- get v "serial" VNone;
  Ok [("id", id); ("name", name); ("vin", vin); ("make", make);
      ("model", model); ("year", year); ("license_plate", license_plate);
      ("serial", serial)].

(** [for v in data: processed_vehicles.append({...})]. *)
Fixpoint vehicles_loop (data : list value)
    (processed_vehicles : list (list (string * value)))
  : outcome (list (list (string * value))) :=
  match data with
  | [] => Ok processed_vehicles
  | v :: rest =>
    record <- vehicle_record v;
    vehicles_loop rest (processed_vehicles ++ [record])%list
  end.

(** The body of [SamsaraAPI.fetch_vehicles], given what [requests.get]
    does. *)
Definition fetch_vehicles (http : reply) : M DataFrame :=
  try_except
    (response <~ lift http;
     exec lift (raise_for_status response);
     body <~ lift (json response);
     data <~ lift (get body "data" (VList []));
     items <~ lift (iterate data);
     processed_vehicles <~ lift (vehicles_loop items []);
     ret (from_records processed_vehicles))
    (fun _ => true)
    (fun e =>
       exec emit (Log ERROR "Error fetching vehicles: " (Some e));
       exec emit (StError "Error fetching vehicles: " (Some e));
       ret no_frame).

(** The dict appended for vehicle [vid] with location payload [loc]. *)
Definition location_record (vid loc : value)
  : outcome (list (string * value)) :=
  latitude <- get loc "latitude" VNone;
  longitude <- get loc "longitude" VNone;
  time <- get loc "time" VNone;
  address <- get loc "formattedAddress" VNone;
  Ok [("vehicle_id", vid); ("latitude", latitude); ("longitude", longitude);
      ("time", time); ("address", address)].

Fixpoint locations_loop (http : value -> reply) (vehicle_ids : list value)
    (locations : list (list (string * value)))
  : outcome (list (list (string * value))) :=
  match vehicle_ids with
  | [] => Ok locations
  | vid :: rest =>
    response <- http vid;
    if (status_code response =? 200)%Z then
      loc <- json response;
      record <- location_record vid loc;
      locations_loop http rest (locations ++ [record])%list
    else locations_loop http rest locations
  end.

(** [SamsaraAPI.fetch_vehicle_locations]. *)
Definition fetch_vehicle_locations (http : value -> reply)
    (vehicle_ids : list value) : M DataFrame :=
  try_except
    (locations <~ lift (locations_loop http vehicle_ids []);
     ret (from_records locations))
    (fun _ => true)
    (fun e =>
       exec emit (Log ERROR "Error fetching locations: " (Some e));
       ret no_frame).

(** [[{"id": d["id"], "name": d["name"]} for d in data]] and its sibling
    for assignments: a two-entry dict per item, built by subscripting. *)
Definition pair_record (k1 from1 k2 from2 : string) (d : value)
  : outcome (list (string * value)) :=
  v1 <- subscript d from1;
  v2 <- subscript d from2;
  Ok [(k1, v1); (k2, v2)].

Definition fetch_pairs (what k1 from1 k2 from2 : string) (http : reply)
  : M DataFrame :=
  try_except
    (response <~ lift http;
     exec lift (raise_for_status response);
     body <~ lift (json response);
     data <~ lift (get body "data" (VList []));
     items <~ lift (iterate data);
     records <~ lift (mapM (pair_record k1 from1 k2 from2) items);
     ret (from_records records))
    (fun _ => true)
    (fun e =>
       exec emit (Log ERROR ("Error fetching " ++ what ++ ": ") (Some e));
       ret no_frame).

(** [SamsaraAPI.fetch_drivers]. *)
Definition fetch_drivers (http : reply) : M DataFrame :=
  fetch_pairs "drivers" "id" "id" "name" "name" http.

(** [SamsaraAPI.fetch_assignments]. *)
Definition fetch_assignments (http : reply) : M DataFrame :=
  fetch_pairs "assignments" "vehicle_id" "vehicleId" "driver_id" "driverId"
              http.

End samsara.

(** ** repair_orders.py: the token, the writes and the small helpers *)

Module fleetrock.

Import repair_orders.

Local Open Scope string_scope.

(** [FleetrockAPI._get_token]; [None] is [VNone]. *)
Definition _get_token (http : reply) : M value :=
  try_except
    (response <~ lift http;
     if (status_code response =? 200)%Z then
       data <~ lift (json response);
       lift (get data "token" VNone)
     else
       let msg := "Failed to get Fleetrock token: "
                  ++ str_int (status_code response) in
       exec emit (Log ERROR msg None);
       exec emit (StError msg None);
       ret VNone)
    (fun _ => true)
    (fun e =>
       exec emit (Log ERROR "Error connecting to Fleetrock: " (Some e));
       exec emit (StError "Error connecting to Fleetrock: " (Some e));
       ret VNone).

(** [FleetrockAPI.__init__]: the token the object holds. *)
Definition FleetrockAPI (api_key : string) (http : reply) : M value :=
  if api_key =? EmptyString then ret VNone else _get_token http.

(** A log record of the write calls, which also log at level INFO. *)
Inductive event :=
| Info (msg : string)
| Effect (e : effect).

(** [d[k] = v] on a dict: the value is replaced in place, a new key goes
    last. *)
Fixpoint setitem (d : list (string * value)) (k : string) (v : value)
  : list (string * value) :=
  match d with
  | [] => [(k, v)]
  | (k', v') :: d' =>
    if k' =? k then (k', v) :: d' else (k', v') :: setitem d' k v
  end.

(** [{"ro_number": ro_number, **updates}]. *)
Definition update_body (ro_number : string) (updates : list (string * value))
  : list (string * value) :=
  fold_left (fun d kv => setitem d (fst kv) (snd kv)) updates
            [("ro_number", VStr ro_number)].

(** The common shape of the two write calls: without a token [False] at
    once; else the request with its JSON body, [True] and an INFO record
    on status 200, [False] and an error record on another status, and on
    an exception [False] with [logging.error] and [st.error]. *)
Definition write_call (what : string) (done failed : string)
    (token : option string) (http : value -> reply)
    (body : value) : outcome bool * list event :=
  if no_token token then (Ok false, [])
  else
    match http body with
    | Ok response =>
      if (status_code response =? 200)%Z then (Ok true, [Info done])
      else (Ok false,
            [Effect (Log ERROR (failed ++ str_int (status_code response))
                         None)])
    | Raise e =>
      (Ok false,
       [Effect (Log ERROR what (Some e)); Effect (StError what (Some e))])
    end.

(** [FleetrockAPI.create_repair_order]. *)
Definition create_repair_order (token : option string)
    (http : value -> reply) (ro_data : value) : outcome bool * list event :=
  write_call "Error creating repair order: " "RO created successfully"
             "Failed to create RO: " token http ro_data.

(** [FleetrockAPI.update_repair_order]. *)
Definition update_repair_order (token : option string)
    (http : value -> reply) (ro_number : string)
    (updates : list (string * value)) : outcome bool * list event :=
  write_call "Error updating repair order: " "RO updated successfully"
             "Failed to update RO: " token http
             (VDict (update_body ro_number updates)).

(** [s.lower()] on ASCII text. *)
Definition lower_text (s : string) : string := text (map lower (chars s)).

Fixpoint assoc (colors : list (string * string)) (k : string) : option string :=
  match colors with
  | [] => None
  | (k', c) :: rest => if k' =? k then Some c else assoc rest k
  end.

(** [get_priority_color]. *)
Definition get_priority_color (priority : string) : string :=
  let colors := [("high", "#dc3545"); ("medium", "#ffc107");
                 ("low", "#28a745")] in
  match assoc colors (lower_text priority) with
  | Some color => color
  | None => "#6c757d"
  end.

(** What [st.session_state] holds on the repair-order page. *)
Inductive session_value :=
| Frame (df : DataFrame)
| Plain (v : value).

(** [if k not in st.session_state: st.session_state[k] = v]. *)
Definition setdefault (state : list (string * session_value)) (k : string)
    (v : session_value) : list (string * session_value) :=
  if existsb (fun kv => fst kv =? k) state then state
  else (state ++ [(k, v)])%list.

(** [init_session_state] of the repair-order page. *)
Definition session_defaults : list (string * session_value) :=
  [("repair_orders", Frame no_frame);
   ("selected_ro", Plain VNone);
   ("ro_filter_status", Plain (VStr "all"));
   ("fleetrock_api_key", Plain (VStr EmptyString));
   ("fleetrock_username", Plain (VStr "wanship.shop"));
   ("fleetrock_base_url", Plain (VStr "https://loves.fleetrock.com/API"));
   ("edit_mode", Plain (VBool false))].

Definition init_session_state (state : list (string * session_value))
  : list (string * session_value) :=
  fold_left (fun st kv => setdefault st (fst kv) (snd kv)) session_defaults
            state.

End fleetrock.

(** ** The properties of the specification, and the data of the examples *)

Module Spec.

Import repair_orders dashboard.

Local Open Scope string_scope.

(** A numeric cell: an [int] or a [float]. *)
Inductive number : value -> Prop :=
| number_int (z : Z) : number (VInt z)
| number_float (x : float) : number (VFloat x).

(** [v > k] and [v < k] as propositions on numbers. *)
Definition above (v : value) (k : Z) : Prop :=
  match v with
  | VInt z => (k < z)%Z
  | VFloat (Finite q) => (inject_Z k < q)%Q
  | VFloat (Inf negative) => negative = false
  | _ => False
  end.

Definition below (v : value) (k : Z) : Prop :=
  match v with
  | VInt z => (z < k)%Z
  | VFloat (Finite q) => (q < inject_Z k)%Q
  | VFloat (Inf negative) => negative = true
  | _ => False
  end.

(** The all-zero mappings of the two aggregators. *)
Definition zero_fleet_metrics : fleet_metrics :=
  {| total_vehicles := VInt 0; moving := VInt 0; idle := VInt 0;
     offline := VInt 0; avg_speed := VInt 0; total_engine_hours := VInt 0;
     low_fuel := VInt 0 |}.

Definition zero_ro_metrics : ro_metrics :=
  {| total_ros := VInt 0; open_ros := VInt 0; closed_ros := VInt 0;
     pending_ros := VInt 0; avg_days_open := VInt 0; total_cost := VInt 0;
     avg_labor_hours := VInt 0; unassigned_ros := VInt 0 |}.

Definition has_column (df : DataFrame) (c : string) : Prop :=
  exists cells, column df c = Ok cells.

(** A column that the reductions accept: numbers and missing values. *)
Definition numeric_column (df : DataFrame) (c : string) : Prop :=
  exists cells xs, column df c = Ok cells /\ numbers cells = Ok xs.

(** No row of the table has status ["open"]. *)
Definition no_open_row (df : DataFrame) : Prop :=
  forall cells, column df "status" = Ok cells ->
                Forall (fun v => eq_str v "open" = false) cells.

(** The instant of a naive datetime, in microseconds on the proleptic
    calendar. *)
Definition timestamp (dt : datetime) : Z :=
  ((toordinal dt * 86400 + day_seconds dt) * 1000000 + microsecond dt)%Z.

(** Whole days from [created] to [now], rounded towards minus infinity. *)
Definition whole_days (created now : datetime) : Z :=
  ((timestamp now - timestamp created) / 86400000000)%Z.

(** The creation time of a raw record, when its [created_date] is a
    non-empty text that parses. *)
Definition created_of (ro : value) : option datetime :=
  match get ro "created_date" (VStr EmptyString) with
  | Ok (VStr s) =>
    if s =? EmptyString then None
    else match fromisoformat (rstrip s "Z") with
         | Ok created => Some created
         | Raise _ => None
         end
  | _ => None
  end.

(** What each record of a batch gives when every record before it was
    processed: the record at position [k] is the [k]-th processed. *)
Fixpoint attempts (now : nat -> datetime) (k : nat) (batch : list value)
  : list (M (list (string * value))) :=
  match batch with
  | [] => []
  | ro :: rest => processed_ro (now k) k ro :: attempts now (S k) rest
  end.

(** The results of a list of computations when all of them return. *)
Fixpoint collect {A} (ms : list (M A)) : option (list A) :=
  match ms with
  | [] => Some []
  | m :: rest =>
    match result m, collect rest with
    | Ok a, Some l => Some (a :: l)
    | _, _ => None
    end
  end.

(** The batch policy in the words of the specification: a record that
    fails normalisation is dropped, the rest of the batch proceeds. *)
Fixpoint spec_drop_failed_records (now : nat -> datetime)
    (batch : list value) (kept : list (list (string * value)))
  : list (list (string * value)) :=
  match batch with
  | [] => kept
  | ro :: rest =>
    let n := List.length kept in
    match result (processed_ro (now n) n ro) with
    | Ok row => spec_drop_failed_records now rest (kept ++ [row])%list
    | Raise _ => spec_drop_failed_records now rest kept
    end
  end.

(** The value under a key of a raw record, or the default. *)
Definition field (d : list (string * value)) (k : string) (default : value)
  : value :=
  match lookup d k with
  | Some v => v
  | None => default
  end.

(** The cell of a row under a label. *)
Definition cell (cols : list string) (row : list value) (c : string) : value :=
  match index_of c cols with
  | Some i => nth i row nan
  | None => nan
  end.

Definition exceeds (v : value) (k : Z) : bool :=
  match v with
  | VInt z => (k <? z)%Z
  | VFloat x => float_gt_int x k
  | _ => false
  end.

Definition under (v : value) (k : Z) : bool :=
  match v with
  | VInt z => (z <? k)%Z
  | VFloat x => float_lt_int x k
  | _ => false
  end.

(** Contract C of the specification, in its words: per row, a speeding
    alert when the speed is above 80, then a low-fuel alert when the fuel
    percentage is under 20; rows in table order. *)
Definition row_alerts (str_other : value -> string) (cols : list string)
    (row : list value) : list string :=
  ((if exceeds (cell cols row "speed_mph") 80
    then [speeding_alert str_other (cell cols row "vehicle_id")
                         (cell cols row "speed_mph")]
    else [])
   ++ (if under (cell cols row "fuel_percent") 20
       then [low_fuel_alert str_other (cell cols row "vehicle_id")
                            (cell cols row "fuel_percent")]
       else []))%list.

Definition alerts_in_row_order (str_other : value -> string)
    (df : DataFrame) : list string :=
  flat_map (row_alerts str_other (columns df)) (data df).

(** A stats table: the three columns that alert generation reads, with
    numbers for speed and fuel. *)
Definition stats_table (df : DataFrame) : Prop :=
  has_column df "vehicle_id"
  /\ has_column df "speed_mph"
  /\ has_column df "fuel_percent"
  /\ Forall (fun row => number (cell (columns df) row "speed_mph")
                        /\ number (cell (columns df) row "fuel_percent"))
            (data df).

(** Example data. *)

Definition speeding_low_fuel : DataFrame :=
  from_records [[("vehicle_id", VStr "V1"); ("speed_mph", VInt 90);
                 ("fuel_percent", VInt 15)]].

Definition no_text (v : value) : string := EmptyString.

Definition at_midnight (y m d : Z) : datetime :=
  {| year := y; month := m; day := d; hour := 0; minute := 0; second := 0;
     microsecond := 0; tzinfo := None |}.

Definition now_2024_01_31 : datetime := at_midnight 2024 1 31.

Definition utc_midnight_2024_01_01 : datetime :=
  {| year := 2024; month := 1; day := 1; hour := 0; minute := 0; second := 0;
     microsecond := 0; tzinfo := Some 0%Z |}.

(** A 200 answer whose body lists the raw records [batch]. *)
Definition orders_reply (batch : list value) : reply :=
  Ok {| status_code := 200;
        json := Ok (VDict [("repair_orders", VList batch)]) |}.

Definition good_order : value :=
  VDict [("ro_number", VStr "RO-7"); ("status", VStr "open");
         ("created_date", VStr "2024-01-01T00:00:00Z");
         ("tasks", VList [VStr "A"; VStr "B"]);
         ("total_cost", VFloat (Finite 120))].

Definition bad_cost_order : value :=
  VDict [("ro_number", VStr "RO-8"); ("total_cost", VStr "N/A")].

Definition future_order : value :=
  VDict [("created_date", VStr "2030-01-01")].

Definition text_fields_order : value :=
  VDict [("tasks", VStr "A, B"); ("parts_needed", VStr "Filter, Oil")].

Definition fixed_clock (n : nat) : datetime := now_2024_01_31.

Definition stats_payload (speed : Z) (engine : string) : value :=
  VDict [("speedMilesPerHour", VInt speed); ("engineState", VStr engine)].

Definition one_vehicle : DataFrame :=
  from_records [[("id", VStr "v1"); ("name", VStr "Truck 1");
                 ("vin", VNone); ("make", VNone); ("model", VNone);
                 ("year", VNone); ("license_plate", VNone);
                 ("serial", VNone)]].

Definition one_closed_order : DataFrame :=
  from_records [[("status", VStr "closed"); ("days_open", VInt 3);
                 ("total_cost", VFloat (Finite 120));
                 ("labor_hours", VFloat (Finite 2));
                 ("technician", VStr "Unassigned")]].

End Spec.
Import Spec.

(** ** The schemas of the fetched tables *)

Module Tables.

Import repair_orders dashboard samsara fleetrock.

Local Open Scope string_scope.

(** The keys of the dict literals of the fetchers, in their order. *)
Definition ro_columns : list string :=
  ["ro_number"; "unit_number"; "vin"; "status"; "priority"; "created_date";
   "due_date"; "days_open"; "estimated_completion"; "description"; "tasks";
   "parts_needed"; "total_cost"; "labor_hours"; "parts_cost"; "labor_cost";
   "technician"; "location"; "customer_name"; "customer_contact"; "notes";
   "warranty"].

Definition vehicle_columns : list string :=
  ["id"; "name"; "vin"; "make"; "model"; "year"; "license_plate"; "serial"].

Definition stats_columns : list string :=
  ["vehicle_id"; "speed_mph"; "fuel_percent"; "engine_hours";
   "odometer_miles"; "status"].

Definition location_columns : list string :=
  ["vehicle_id"; "latitude"; "longitude"; "time"; "address"].

(** The value of a record under a key, [nan] when the key is absent: the
    cell that [pd.DataFrame] makes of it. *)
Definition cell_of (r : list (string * value)) (c : string) : value :=
  match lookup r c with
  | Some v => v
  | None => nan
  end.

(** A row of a repair-order table: an [int] under [days_open], floats
    under [total_cost] and [labor_hours]. *)
Definition ro_row (row : list value) : Prop :=
  (exists d, cell ro_columns row "days_open" = VInt d)
  /\ (exists x, cell ro_columns row "total_cost" = VFloat x)
  /\ (exists x, cell ro_columns row "labor_hours" = VFloat x).

Definition ro_table (df : DataFrame) : Prop :=
  columns df = ro_columns /\ Forall ro_row (data df).

(** A processed record: the keys of the dict literal, and the cells of a
    repair-order row. *)
Definition ro_record (r : list (string * value)) : Prop :=
  map fst r = ro_columns /\ ro_row (map (cell_of r) ro_columns).

(** A row of a stats table whose status is one of the three labels. *)
Definition labelled (row : list value) : Prop :=
  cell stats_columns row "status" = VStr "moving"
  \/ cell stats_columns row "status" = VStr "idle"
  \/ cell stats_columns row "status" = VStr "offline".

(** The vehicles whose request is answered with status 200. *)
Definition answered (http : value -> reply) (vehicle_ids : list value)
  : list value :=
  filter (fun vid => match http vid with
                     | Ok r => (status_code r =? 200)%Z
                     | Raise _ => false
                     end) vehicle_ids.

(** A reply that carries a status and, when the status is 200, a JSON
    object. *)
Definition well_formed (r : reply) : Prop :=
  exists response,
    r = Ok response
    /\ (status_code response = 200%Z ->
        exists d, json response = Ok (VDict d)).

(** A stats reply that can be processed: well formed, and with a number
    for the speed when the status is 200 (the default speed is 0). *)
Definition telemetry (r : reply) : Prop :=
  exists response,
    r = Ok response
    /\ (status_code response = 200%Z ->
        exists d, json response = Ok (VDict d)
                  /\ number (field d "speedMilesPerHour" (VInt 0))).

(** A row of a stats table with its label and with numbers in the columns
    that the fleet metrics reduce. *)
Definition telemetry_row (row : list value) : Prop :=
  labelled row
  /\ number (cell stats_columns row "speed_mph")
  /\ number (cell stats_columns row "fuel_percent")
  /\ number (cell stats_columns row "engine_hours").

(** The value of a raw record under a key, [None] when absent or when the
    record is no dict. *)
Definition raw (v : value) (k : string) : value :=
  match v with
  | VDict d => field d k VNone
  | _ => VNone
  end.

Definition is_dict (v : value) : Prop := exists d, v = VDict d.

(** A creation date that the days-open calculation accepts: nothing, or a
    text that does not parse to a time with a UTC offset. *)
Definition dated (v : value) : Prop :=
  truthy v = false
  \/ exists s, v = VStr s
               /\ forall created, fromisoformat (rstrip s "Z") = Ok created ->
                                  tzinfo created = None.

(** A tasks or parts entry that can be joined: no list, or a list of
    texts. *)
Definition listed (v : value) : Prop :=
  (forall l, v <> VList l) \/ exists items, v = VList (map VStr items).

(** A cost entry that [float] converts. *)
Definition costed (v : value) : Prop := exists x, to_float v = Ok x.

(** The number that a text of decimal digits denotes. *)
Definition digits_value (s : string) : N :=
  fold_left (fun acc c => 10 * acc + (code c - 48))%N (chars s) 0%N.

(** The entry of a session state under a key. *)
Fixpoint session_get (state : list (string * session_value)) (k : string)
  : option session_value :=
  match state with
  | [] => None
  | (k', v) :: rest => if k' =? k then Some v else session_get rest k
  end.

(** Example data. *)

Definition answer (status : Z) (body : value) : reply :=
  Ok {| status_code := status; json := Ok body |}.

Definition two_vehicles : value :=
  VDict [("data", VList [VDict [("id", VStr "v1"); ("name", VStr "Truck 1");
                                ("licensePlate", VStr "ABC-1")];
                         VDict [("id", VStr "v2")]])].

Definition stats_of_v1 (vid : value) : reply :=
  match vid with
  | VStr "v1" => answer 200 (VDict [("speedMilesPerHour", VInt 90);
                                    ("fuelPercent", VInt 15)])
  | _ => answer 404 VNone
  end.

End Tables.
Import Tables.

(** ** Proofs *)

Import repair_orders dashboard.

Local Open Scope string_scope.

(** *** Comparisons *)

Lemma gt_int_number (v : value) (k : Z) :
  number v -> exists b, gt_int v k = Ok b /\ (b = true <-> above v k).
Proof.
  intros [z | x]; cbn.
  - exists (k <? z)%Z. split; [reflexivity | apply Z.ltb_lt].
  - exists (float_gt_int x k). split; [reflexivity |].
    destruct x as [q | [|] |]; cbn.
    + rewrite negb_true_iff, <- not_true_iff_false, Qle_bool_iff.
      split; [apply Qnot_le_lt | apply Qlt_not_le].
    + split; discriminate.
    + split; reflexivity.
    + split; [discriminate | contradiction].
Qed.

Lemma lt_int_number (v : value) (k : Z) :
  number v -> exists b, lt_int v k = Ok b /\ (b = true <-> below v k).
Proof.
  intros [z | x]; cbn.
  - exists (z <? k)%Z. split; [reflexivity | apply Z.ltb_lt].
  - exists (float_lt_int x k). split; [reflexivity |].
    destruct x as [q | [|] |]; cbn.
    + rewrite negb_true_iff, <- not_true_iff_false, Qle_bool_iff.
      split; [apply Qnot_le_lt | apply Qlt_not_le].
    + split; reflexivity.
    + split; discriminate.
    + split; [discriminate | contradiction].
Qed.

(** *** Status classification *)

(** C6. For a stats payload whose speed is a number and whose engine state
    is a string, the derived status is always produced, and it is
    [moving] when the speed is above 0, otherwise [idle] when the engine
    state is ["Running"], otherwise [offline]. *)
Theorem status_of_classifies :
  forall (d : list (string * value)) (speed : value) (engine : string),
    lookup d "speedMilesPerHour" = Some speed ->
    lookup d "engineState" = Some (VStr engine) ->
    number speed ->
    exists status,
      status_of (VDict d) = Ok status
      /\ (above speed 0 -> status = "moving")
      /\ (~ above speed 0 -> engine = "Running" -> status = "idle")
      /\ (~ above speed 0 -> engine <> "Running" -> status = "offline").
Proof.
  intros d speed engine Hspeed Hengine Hnum.
  destruct (gt_int_number speed 0 Hnum) as [b [Hgt Hb]].
  unfold status_of; cbn. rewrite Hspeed; cbn. rewrite Hgt; cbn.
  destruct b.
  - exists "moving". repeat split; try reflexivity.
    + intros Hn; exfalso; apply Hn, Hb; reflexivity.
    + intros Hn; exfalso; apply Hn, Hb; reflexivity.
  - rewrite Hengine; cbn.
    assert (Hnot : ~ above speed 0) by (intros H; apply Hb in H; discriminate).
    destruct (String.eqb_spec engine "Running") as [-> | Hne].
    + exists "idle". repeat split; try reflexivity; try contradiction.
    + exists "offline". repeat split; try reflexivity; try contradiction.
Qed.

Lemma status_of_classifies_witness :
  status_of (stats_payload 0 "Running") = Ok "idle"
  /\ status_of (stats_payload 5 "Off") = Ok "moving"
  /\ status_of (stats_payload 0 "Off") = Ok "offline".
Proof.
  split; [| split].
  - destruct (status_of_classifies
                [("speedMilesPerHour", VInt 0); ("engineState", VStr "Running")]
                (VInt 0) "Running" eq_refl eq_refl (number_int 0))
      as [status [Hrun [_ [Hidle _]]]].
    unfold stats_payload. rewrite Hrun. f_equal. apply Hidle.
    + cbn. lia.
    + reflexivity.
  - destruct (status_of_classifies
                [("speedMilesPerHour", VInt 5); ("engineState", VStr "Off")]
                (VInt 5) "Off" eq_refl eq_refl (number_int 5))
      as [status [Hrun [Hmoving _]]].
    unfold stats_payload. rewrite Hrun. f_equal. apply Hmoving. cbn. lia.
  - destruct (status_of_classifies
                [("speedMilesPerHour", VInt 0); ("engineState", VStr "Off")]
                (VInt 0) "Off" eq_refl eq_refl (number_int 0))
      as [status [Hrun [_ [_ Hoff]]]].
    unfold stats_payload. rewrite Hrun. f_equal. apply Hoff.
    + cbn. lia.
    + discriminate.
Defined.

(** *** Metrics *)

Lemma select_none {A} (l : list A) (mask : list bool) :
  Forall (fun b => b = false) mask -> select l mask = [].
Proof.
  intros Hmask. revert l.
  induction Hmask as [| b mask Hb _ IH]; intros [| x l]; cbn; try reflexivity.
  rewrite Hb. apply IH.
Qed.

Lemma empty_no_rows (df : DataFrame) : data df = [] -> empty df = true.
Proof. unfold empty. intros ->. destruct (columns df); reflexivity. Qed.

Lemma nonempty_len (df : DataFrame) : empty df = false -> (0 < len df)%nat.
Proof.
  unfold empty, len.
  destruct (columns df), (data df); cbn; try discriminate. lia.
Qed.

Lemma series_sum_numeric (cells : list value) (xs : list float) :
  numbers cells = Ok xs -> exists v, series_sum cells = Ok v.
Proof.
  intros Hxs. unfold series_sum.
  destruct (integers cells); [eauto |].
  destruct (texts cells); [eauto |]. rewrite Hxs. cbn. eauto.
Qed.

Lemma series_mean_numeric (cells : list value) (xs : list float) :
  numbers cells = Ok xs -> exists v, series_mean cells = Ok v.
Proof. intros Hxs. unfold series_mean. rewrite Hxs. cbn. eauto. Qed.

(** C10. When the stats table is empty the fleet metrics are the all-zero
    mapping whatever the vehicles table holds; with a non-empty vehicles
    table the reported [total_vehicles], 0, is not the number of
    vehicles. *)
Theorem fleet_metrics_without_stats :
  forall vehicles_df stats_df : DataFrame,
    empty stats_df = true ->
    calculate_fleet_metrics vehicles_df stats_df = Ok zero_fleet_metrics
    /\ total_vehicles zero_fleet_metrics = VInt 0
    /\ (empty vehicles_df = false ->
        total_vehicles zero_fleet_metrics
        <> int_of_nat (len vehicles_df)).
Proof.
  intros vehicles_df stats_df Hstats.
  unfold calculate_fleet_metrics. rewrite Hstats, orb_true_r.
  split; [reflexivity | split; [reflexivity |]].
  intros Hvehicles Heq. apply nonempty_len in Hvehicles.
  cbn in Heq. unfold int_of_nat in Heq.
  injection Heq as Heq. lia.
Qed.

Lemma fleet_metrics_without_stats_witness :
  empty one_vehicle = false
  /\ calculate_fleet_metrics one_vehicle no_frame = Ok zero_fleet_metrics
  /\ len one_vehicle = 1%nat.
Proof.
  split; [reflexivity |].
  split; [| reflexivity].
  apply (fleet_metrics_without_stats one_vehicle no_frame). reflexivity.
Defined.

(** C2. The means of the aggregators are 0 over an empty selection: the
    fleet metrics of an empty table are the all-zero mapping, and so are
    the repair-order metrics; on a repair-order table with no open row the
    metrics are produced and the mean days-open is 0. *)
Theorem means_of_empty_selections :
  (forall vehicles_df stats_df : DataFrame,
      empty vehicles_df = true \/ empty stats_df = true ->
      calculate_fleet_metrics vehicles_df stats_df = Ok zero_fleet_metrics)
  /\ (forall df : DataFrame,
         empty df = true -> calculate_ro_metrics df = Ok zero_ro_metrics)
  /\ (forall df : DataFrame,
         has_column df "status" ->
         has_column df "technician" ->
         numeric_column df "total_cost" ->
         numeric_column df "labor_hours" ->
         no_open_row df ->
         exists m, calculate_ro_metrics df = Ok m
                   /\ avg_days_open m = VInt 0).
Proof.
  split; [| split].
  - intros vehicles_df stats_df Hempty. unfold calculate_fleet_metrics.
    destruct Hempty as [-> | ->]; [| rewrite orb_true_r]; reflexivity.
  - intros df Hempty. unfold calculate_ro_metrics. rewrite Hempty.
    reflexivity.
  - intros df [st Hst] [tech Htech] [costs [cs [Hcosts Hcs]]]
           [hours [hs [Hhours Hhs]]] Hopen.
    unfold calculate_ro_metrics.
    destruct (empty df) eqn:Hempty; [exists zero_ro_metrics; now split |].
    destruct (series_sum_numeric _ _ Hcs) as [cost Hcost].
    destruct (series_mean_numeric _ _ Hhs) as [avg Havg].
    unfold where_eq. rewrite Hst, Htech, Hcosts, Hhours. cbn.
    rewrite Hcost, Havg. cbn.
    assert (Hsel : empty (where_ df (map (fun v => eq_str v "open") st))
                   = true).
    { apply empty_no_rows. cbn. apply select_none.
      apply Forall_map. exact (Hopen st Hst). }
    rewrite Hsel. cbn. eexists. split; reflexivity.
Qed.

Lemma means_of_empty_selections_witness :
  calculate_fleet_metrics no_frame no_frame = Ok zero_fleet_metrics
  /\ calculate_ro_metrics no_frame = Ok zero_ro_metrics
  /\ exists m, calculate_ro_metrics one_closed_order = Ok m
               /\ avg_days_open m = VInt 0.
Proof.
  destruct means_of_empty_selections as [Hfleet [Hro Hopen]].
  split; [apply Hfleet; left; reflexivity |].
  split; [apply Hro; reflexivity |].
  apply Hopen.
  - eexists; reflexivity.
  - eexists; reflexivity.
  - eexists; eexists; split; reflexivity.
  - eexists; eexists; split; reflexivity.
  - intros cells Hcells. injection Hcells as <-.
    repeat constructor.
Defined.

(** *** Alerts *)

Lemma has_column_item (df : DataFrame) (c : string) (row : list value) :
  has_column df c -> item (columns df) row c = Ok (cell (columns df) row c).
Proof.
  intros [cells Hcells]. unfold column in Hcells. unfold item, cell.
  destruct (index_of c (columns df)); [reflexivity | discriminate].
Qed.

Lemma gt_int_exceeds (v : value) (k : Z) :
  number v -> gt_int v k = Ok (exceeds v k).
Proof. intros [z | x]; reflexivity. Qed.

Lemma lt_int_under (v : value) (k : Z) :
  number v -> lt_int v k = Ok (under v k).
Proof. intros [z | x]; reflexivity. Qed.

(** The boolean tests of the row-by-row reading are the comparisons. *)
Lemma exceeds_above (v : value) (k : Z) :
  number v -> (exceeds v k = true <-> above v k).
Proof.
  intros Hv. destruct (gt_int_number v k Hv) as [b [Hb Hiff]].
  rewrite (gt_int_exceeds v k Hv) in Hb. injection Hb as ->. exact Hiff.
Qed.

Lemma under_below (v : value) (k : Z) :
  number v -> (under v k = true <-> below v k).
Proof.
  intros Hv. destruct (lt_int_number v k Hv) as [b [Hb Hiff]].
  rewrite (lt_int_under v k Hv) in Hb. injection Hb as ->. exact Hiff.
Qed.

Section AlertsLoop.

Variable str_other : value -> string.
Variable df : DataFrame.
Hypothesis Hid : has_column df "vehicle_id".
Hypothesis Hspeed : has_column df "speed_mph".
Hypothesis Hfuel : has_column df "fuel_percent".

(** The loop appends the alerts of each row to what it has collected. *)
Lemma alerts_loop_appends (rows : list (list value)) :
  Forall (fun row => number (cell (columns df) row "speed_mph")
                     /\ number (cell (columns df) row "fuel_percent")) rows ->
  forall alerts,
    alerts_loop str_other (columns df) rows alerts
    = Ok (alerts ++ flat_map (row_alerts str_other (columns df)) rows)%list.
Proof.
  induction 1 as [| row rows [Hs Hf] _ IH]; intros alerts; cbn.
  - now rewrite app_nil_r.
  - rewrite !(has_column_item df "speed_mph") by assumption.
    rewrite !(has_column_item df "fuel_percent") by assumption.
    rewrite !(has_column_item df "vehicle_id") by assumption.
    cbn. rewrite (gt_int_exceeds _ 80 Hs). cbn.
    unfold row_alerts.
    destruct (exceeds (cell (columns df) row "speed_mph") 80); cbn;
      rewrite (lt_int_under _ 20 Hf); cbn;
      destruct (under (cell (columns df) row "fuel_percent") 20); cbn;
      rewrite IH; f_equal; rewrite <- ?app_assoc; reflexivity.
Qed.

End AlertsLoop.

(** C9. On a stats table, alert generation returns the alerts of the rows
    in table order, and within a row the speeding alert (speed above 80)
    before the low-fuel alert (fuel under 20). *)
Theorem generate_alerts_in_row_order :
  forall (str_other : value -> string) (stats_df : DataFrame),
    stats_table stats_df ->
    generate_alerts str_other stats_df
    = Ok (alerts_in_row_order str_other stats_df).
Proof.
  intros str_other stats_df (Hid & Hspeed & Hfuel & Hrows).
  unfold generate_alerts, alerts_in_row_order.
  now rewrite (alerts_loop_appends str_other stats_df Hid Hspeed Hfuel _ Hrows).
Qed.

Lemma generate_alerts_in_row_order_witness :
  stats_table speeding_low_fuel
  /\ generate_alerts no_text speeding_low_fuel
     = Ok ["Vehicle V1: Speeding (90 mph)"; "Vehicle V1: Low fuel (15%)"].
Proof.
  assert (Htable : stats_table speeding_low_fuel).
  { repeat split; try (eexists; reflexivity).
    repeat constructor. }
  split; [exact Htable |].
  rewrite (generate_alerts_in_row_order no_text speeding_low_fuel Htable).
  reflexivity.
Defined.

(** *** Days open *)

Lemma days_make_timedelta (d s us : Z) :
  days (make_timedelta d s us)
  = (((d * 86400 + s) * 1000000 + us) / 86400000000)%Z.
Proof.
  unfold make_timedelta; cbn [days].
  change 86400000000%Z with (1000000 * 86400)%Z.
  rewrite <- Z.div_div by lia.
  rewrite Z.div_add_l by lia.
  rewrite <- Z.add_assoc, Z.div_add_l by lia.
  reflexivity.
Qed.

Lemma sub_naive (now created : datetime) :
  tzinfo now = None -> tzinfo created = None ->
  exists delta, sub now created = Ok delta
                /\ days delta = whole_days created now.
Proof.
  intros Hnow Hcreated. unfold sub. rewrite Hnow, Hcreated.
  eexists. split; [reflexivity |].
  rewrite days_make_timedelta. unfold whole_days, timestamp.
  f_equal. lia.
Qed.

Lemma whole_days_nonneg (created now : datetime) :
  (0 <= whole_days created now <-> timestamp created <= timestamp now)%Z.
Proof.
  unfold whole_days. split; intros H.
  - destruct (Z.le_gt_cases (timestamp created) (timestamp now)) as [Hle | Hgt];
      [exact Hle |].
    assert ((timestamp now - timestamp created) / 86400000000 < 0)%Z
      by (apply Z.div_lt_upper_bound; lia).
    lia.
  - apply Z.div_pos; lia.
Qed.

Lemma fromisoformat_raises (s : string) (e : exn) :
  fromisoformat s = Raise e -> e = ValueError.
Proof.
  unfold fromisoformat.
  repeat match goal with
         | |- context [match ?x with _ => _ end] => destruct x
         end; congruence.
Qed.

Lemma truthy_text (s : string) : s <> EmptyString -> truthy (VStr s) = true.
Proof.
  intros Hs. cbn. apply negb_true_iff.
  destruct (String.eqb_spec s EmptyString); [contradiction | reflexivity].
Qed.

(** The path that works. For a non-empty text that, once its trailing
    [Z]s are stripped, parses to a datetime without UTC offset, days-open
    is the number of whole days from that time to the current time of
    [datetime.now()], and nothing is logged. *)
Theorem days_open_of_naive_timestamp :
  forall (now created : datetime) (s : string),
    s <> EmptyString ->
    fromisoformat (rstrip s "Z") = Ok created ->
    tzinfo created = None ->
    tzinfo now = None ->
    _calculate_days_open now (VStr s) = (Ok (whole_days created now), []).
Proof.
  intros now created s Hs Hparse Hcreated Hnow.
  unfold _calculate_days_open. rewrite (truthy_text s Hs). cbn.
  rewrite Hparse.
  destruct (sub_naive now created Hnow Hcreated) as [delta [Hsub Hdays]].
  cbn. rewrite Hsub. cbn. now rewrite Hdays.
Qed.

Lemma days_open_of_naive_timestamp_witness :
  _calculate_days_open now_2024_01_31 (VStr "2024-01-01T00:00:00Z")
  = (Ok 30%Z, []).
Proof.
  exact (days_open_of_naive_timestamp
           now_2024_01_31 (at_midnight 2024 1 1) "2024-01-01T00:00:00Z"
           ltac:(discriminate) eq_refl eq_refl eq_refl).
Defined.

(** C7. The code at the failing input.  The well-formed ISO-8601 text
    [2024-01-01T00:00:00+00:00] is the instant that the text with [Z] of
    the claim's example names; it parses, to a datetime with a UTC offset,
    and subtracting that from the current time of [datetime.now()], which
    has none, raises [TypeError].  The handler of the function catches
    [ValueError] only, so no number of days is returned where the claim
    says 30. *)
Lemma days_open_with_offset_raises :
  fromisoformat (rstrip "2024-01-01T00:00:00+00:00" "Z")
  = Ok utc_midnight_2024_01_01
  /\ _calculate_days_open now_2024_01_31 (VStr "2024-01-01T00:00:00+00:00")
     = (Raise TypeError, []).
Proof. split; reflexivity. Qed.

(** C8, amended. For a non-empty text that fails to parse, days-open is 0,
    one warning is logged, and nothing is raised. *)
Theorem days_open_of_invalid_text :
  forall (now : datetime) (s : string) (e : exn),
    s <> EmptyString ->
    fromisoformat (rstrip s "Z") = Raise e ->
    _calculate_days_open now (VStr s)
    = (Ok 0%Z,
       [Log WARNING ("Invalid date format: " ++ rstrip s "Z") None]).
Proof.
  intros now s e Hs Hparse.
  unfold _calculate_days_open. rewrite (truthy_text s Hs). cbn.
  rewrite Hparse. rewrite (fromisoformat_raises _ _ Hparse). reflexivity.
Qed.

Lemma days_open_of_invalid_text_witness :
  _calculate_days_open now_2024_01_31 (VStr "not-a-date")
  = (Ok 0%Z, [Log WARNING "Invalid date format: not-a-date" None]).
Proof.
  exact (days_open_of_invalid_text
           now_2024_01_31 "not-a-date" ValueError
           ltac:(discriminate) eq_refl).
Defined.

(** C8 as stated fails on the empty text: parsing it fails, yet the guard
    of the function returns 0 before any parse and no warning is logged. *)
Lemma days_open_of_empty_text_is_silent :
  fromisoformat (rstrip EmptyString "Z") = Raise ValueError
  /\ _calculate_days_open now_2024_01_31 (VStr EmptyString) = (Ok 0%Z, []).
Proof. split; reflexivity. Qed.

(** *** The monad of logging computations *)

Lemma result_bindM {A B} (m : M A) (k : A -> M B) :
  result (bindM m k)
  = match result m with
    | Ok a => result (k a)
    | Raise e => Raise e
    end.
Proof.
  destruct m as [[a | e] evs]; cbn; [| reflexivity].
  destruct (k a); reflexivity.
Qed.

Lemma bindM_ok {A B} (m : M A) (k : A -> M B) (b : B) :
  result (bindM m k) = Ok b ->
  exists a, result m = Ok a /\ result (k a) = Ok b.
Proof.
  rewrite result_bindM. destruct (result m) as [a | e]; [eauto | discriminate].
Qed.

Lemma try_except_all {A} (body : M A) (handler : exn -> M A) :
  try_except body (fun _ => true) handler
  = match body with
    | (Ok a, evs) => (Ok a, evs)
    | (Raise e, evs) => (fst (handler e), (evs ++ snd (handler e))%list)
    end.
Proof.
  destruct body as [[a | e] evs]; cbn; [reflexivity |].
  destruct (handler e); reflexivity.
Qed.

(** *** Normalisation of one record *)

Lemma processed_ro_dict (now : datetime) (n : nat) (ro : value)
    (row : list (string * value)) :
  result (processed_ro now n ro) = Ok row -> exists d, ro = VDict d.
Proof.
  destruct ro; try (cbn; discriminate). eauto.
Qed.

(** The entries of a processed record that are derived rather than
    copied. *)
Lemma processed_ro_inv (now : datetime) (n : nat)
    (d : list (string * value)) (row : list (string * value)) :
  result (processed_ro now n (VDict d)) = Ok row ->
  exists days tasks parts,
    result (_calculate_days_open
              now (field d "created_date" (VStr EmptyString))) = Ok days
    /\ joined_or (VDict d) "tasks" (get (VDict d) "tasks" (VStr EmptyString))
       = Ok tasks
    /\ joined_or (VDict d) "parts_needed" (Ok (VStr EmptyString)) = Ok parts
    /\ lookup row "days_open" = Some (VInt days)
    /\ lookup row "tasks" = Some tasks
    /\ lookup row "parts_needed" = Some parts.
Proof.
  intros H. unfold processed_ro in H.
  repeat (apply bindM_ok in H; destruct H as [? [? H]]).
  repeat match goal with
         | E : result (lift _) = Ok _ |- _ =>
           unfold lift, result in E; cbn [fst] in E
         end.
  repeat match goal with
         | E : get (VDict d) _ _ = Ok _ |- _ =>
           cbn [get] in E; injection E as E
         end.
  cbn in H. injection H as <-.
  subst. do 3 eexists. repeat split; eassumption || reflexivity.
Qed.

Lemma join_values_texts (sep : string) (items : list string) :
  join_values sep (map VStr items) = Ok (join sep items).
Proof.
  unfold join_values.
  assert (Hitems : mapM (fun v => match v with
                                  | VStr s => Ok s
                                  | _ => Raise TypeError
                                  end) (map VStr items) = Ok items).
  { induction items as [| x items IH]; cbn; [reflexivity |].
    now rewrite IH. }
  now rewrite Hitems.
Qed.

(** The list-typed fields.  A list of texts is joined with [", "] in both
    fields, and a text under [tasks] is kept as it is. *)
Lemma joined_or_list (d : list (string * value)) (k : string)
    (items : list string) (other : outcome value) :
  lookup d k = Some (VList (map VStr items)) ->
  joined_or (VDict d) k other = Ok (VStr (join ", " items)).
Proof.
  intros Hk. unfold joined_or. cbn. rewrite Hk. cbn.
  now rewrite join_values_texts.
Qed.

Lemma tasks_text_unchanged (d : list (string * value)) (s : string) :
  lookup d "tasks" = Some (VStr s) ->
  joined_or (VDict d) "tasks" (get (VDict d) "tasks" (VStr EmptyString))
  = Ok (VStr s).
Proof. intros Hk. unfold joined_or. cbn. rewrite Hk. reflexivity. Qed.

(** C4, the part the code misses. A text under [parts_needed] does not
    pass through: the processed record holds the empty text instead. *)
Theorem parts_needed_text_is_lost :
  forall (now : datetime) (n : nat) (d row : list (string * value))
         (s : string),
    lookup d "parts_needed" = Some (VStr s) ->
    result (processed_ro now n (VDict d)) = Ok row ->
    lookup row "parts_needed" = Some (VStr EmptyString).
Proof.
  intros now n d row s Hparts Hrow.
  destruct (processed_ro_inv now n d row Hrow)
    as (days & tasks & parts & _ & _ & Hjoined & _ & _ & Hlookup).
  unfold joined_or in Hjoined. cbn in Hjoined. rewrite Hparts in Hjoined.
  cbn in Hjoined. injection Hjoined as <-. exact Hlookup.
Qed.

Lemma parts_needed_text_is_lost_witness :
  exists row,
    result (processed_ro now_2024_01_31 0 text_fields_order) = Ok row
    /\ lookup row "tasks" = Some (VStr "A, B")
    /\ lookup row "parts_needed" = Some (VStr EmptyString).
Proof.
  eexists. split; [reflexivity |]. split; [reflexivity |].
  apply (parts_needed_text_is_lost
           now_2024_01_31 0
           [("tasks", VStr "A, B"); ("parts_needed", VStr "Filter, Oil")]
           _ "Filter, Oil");
    reflexivity.
Defined.

(** C5, amended. The days-open entry of a processed record is an integer.
    When the creation date of the raw record is a text that parses, it is
    the number of whole days to the current time, which is non-negative
    exactly when the creation time is not later than the current time;
    otherwise it is 0. *)
Theorem days_open_entry_sign :
  forall (now : datetime) (n : nat) (ro : value) (row : list (string * value)),
    tzinfo now = None ->
    result (processed_ro now n ro) = Ok row ->
    exists d : Z,
      lookup row "days_open" = Some (VInt d)
      /\ match created_of ro with
         | Some created =>
           d = whole_days created now
           /\ (0 <= d <-> timestamp created <= timestamp now)%Z
         | None => d = 0%Z
         end.
Proof.
  intros now n ro row Hnow Hrow.
  destruct (processed_ro_dict now n ro row Hrow) as [dd ->].
  destruct (processed_ro_inv now n dd row Hrow)
    as (days & tasks & parts & Hdays & _ & _ & Hlookup & _).
  exists days. split; [exact Hlookup |].
  unfold created_of. cbn [get]. fold (field dd "created_date" (VStr EmptyString)).
  revert Hdays. generalize (field dd "created_date" (VStr EmptyString)) as cd.
  intros cd. unfold _calculate_days_open.
  destruct (truthy cd) eqn:Htruthy; cbn [negb].
  - destruct cd as [| b | z | x | s | l | l]; try (cbn; discriminate).
    cbn in Htruthy. apply negb_true_iff in Htruthy. rewrite Htruthy.
    destruct (fromisoformat (rstrip s "Z")) as [created | e] eqn:Hparse.
    + destruct (tzinfo created) eqn:Htz.
      * assert (Hsub : sub now created = Raise TypeError)
          by (unfold sub; now rewrite Hnow, Htz).
        cbn [bindM lift]. rewrite Hsub. cbn. discriminate.
      * destruct (sub_naive now created Hnow Htz) as [delta [Hsub Hd]].
        cbn [bindM lift]. rewrite Hsub. cbn. intros [= <-].
        split; [exact Hd |]. rewrite Hd. apply whole_days_nonneg.
    + rewrite (fromisoformat_raises _ _ Hparse). cbn. now intros [= <-].
  - cbn. intros [= <-].
    destruct cd as [| b | z | x | s | l | l]; try reflexivity.
    cbn in Htruthy. apply negb_false_iff in Htruthy. now rewrite Htruthy.
Qed.

Lemma days_open_entry_sign_witness :
  exists row,
    result (processed_ro now_2024_01_31 0 good_order) = Ok row
    /\ lookup row "days_open" = Some (VInt 30).
Proof.
  eexists. split; [reflexivity |].
  destruct (days_open_entry_sign now_2024_01_31 0 good_order _
              eq_refl eq_refl) as [d [Hlookup Hd]].
  cbn in Hd. destruct Hd as [-> _]. exact Hlookup.
Defined.

(** C5 as stated fails on a creation date in the future: the entry is
    negative. *)
Lemma days_open_entry_negative :
  exists row,
    result (processed_ro now_2024_01_31 0 future_order) = Ok row
    /\ lookup row "days_open" = Some (VInt (-2162)).
Proof. eexists. split; reflexivity. Qed.

(** *** The batch of repair orders *)

Section Batch.

Variable now : nat -> datetime.

(** The loop returns every row when every record is processed, and raises
    as soon as one record fails. *)
Lemma process_all_collect (batch : list value) :
  forall processed_ros,
    match collect (attempts now (List.length processed_ros) batch) with
    | Some rows =>
      result (process_all now batch processed_ros)
      = Ok (processed_ros ++ rows)%list
      /\ List.length rows = List.length batch
    | None => exists e, result (process_all now batch processed_ros) = Raise e
    end.
Proof.
  induction batch as [| ro rest IH]; intros processed_ros;
    cbn [attempts collect process_all].
  - now rewrite app_nil_r.
  - rewrite result_bindM.
    destruct (result (processed_ro (now (List.length processed_ros))
                                   (List.length processed_ros) ro))
      as [row | e]; [| eauto].
    cbn beta.
    specialize (IH (processed_ros ++ [row])%list).
    rewrite length_app, Nat.add_1_r in IH. cbn [List.length] in IH.
    destruct (collect (attempts now (S (List.length processed_ros)) rest))
      as [rows |].
    + destruct IH as [Hrows Hlen]. rewrite Hrows, <- app_assoc.
      cbn. now rewrite Hlen.
    + exact IH.
Qed.

End Batch.

(** C1, amended. With a token and a 200 answer that lists the batch, the
    fetch is all or nothing: when every record is processed the table
    holds one row per record, in order; when one record fails the table is
    the empty one and the failure is logged as an error. *)
Theorem fetch_repair_orders_all_or_nothing :
  forall (token : option string) (now : nat -> datetime) (batch : list value),
    no_token token = false ->
    match collect (attempts now 0 batch) with
    | Some rows =>
      result (fetch_repair_orders token now (orders_reply batch))
      = Ok (from_records rows)
      /\ List.length rows = List.length batch
    | None =>
      result (fetch_repair_orders token now (orders_reply batch)) = Ok no_frame
      /\ exists e,
          In (Log ERROR "Error fetching repair orders: " (Some e))
             (effects (fetch_repair_orders token now (orders_reply batch)))
    end.
Proof.
  intros token now batch Htoken.
  unfold fetch_repair_orders. rewrite Htoken, try_except_all.
  unfold orders_reply. cbn [lift bindM status_code json get lookup iterate].
  change (200 =? 200)%Z with true. cbn [lift bindM get lookup iterate String.eqb Ascii.eqb Bool.eqb].
  pose proof (process_all_collect now batch []) as Hloop.
  cbn [List.length app] in Hloop.
  destruct (process_all now batch []) as [[rows' | e] evs] eqn:Hrun;
    cbn [result fst] in Hloop.
  - destruct (collect (attempts now 0 batch)) as [rows |].
    + destruct Hloop as [[= ->] Hlen]. cbn. now split.
    + destruct Hloop as [e He]. discriminate.
  - destruct (collect (attempts now 0 batch)) as [rows |].
    + destruct Hloop as [Hrows _]. discriminate.
    + cbn. split; [reflexivity |]. exists e.
      unfold effects. cbn. apply in_or_app. right. now left.
Qed.

Lemma fetch_repair_orders_all_or_nothing_witness :
  exists row,
    result (fetch_repair_orders (Some "token") fixed_clock
                                (orders_reply [good_order]))
    = Ok (from_records [row])
    /\ lookup row "ro_number" = Some (VStr "RO-7").
Proof.
  pose proof (fetch_repair_orders_all_or_nothing
                (Some "token") fixed_clock [good_order] eq_refl) as H.
  cbn [collect attempts] in H.
  destruct (result (processed_ro (fixed_clock 0) 0 good_order))
    as [row | e] eqn:Hrow; [| discriminate Hrow].
  destruct H as [H _]. exists row. split; [exact H |].
  injection Hrow as <-. reflexivity.
Defined.

(** C1 as stated fails: one record with a cost that is no number empties
    the whole result, although the other record of the batch is processed
    without error and the policy of the specification would keep it. *)
Lemma one_bad_cost_empties_the_batch :
  fetch_repair_orders (Some "token") fixed_clock
                      (orders_reply [good_order; bad_cost_order])
  = (Ok no_frame,
     [Log ERROR "Error fetching repair orders: " (Some ValueError);
      StError "Error fetching repair orders: " (Some ValueError)])
  /\ len no_frame = 0%nat
  /\ len (from_records
            (spec_drop_failed_records fixed_clock
                                      [good_order; bad_cost_order] []))
     = 1%nat.
Proof. repeat split. Qed.

(** *** The vehicle join *)

(** When no vehicle's stats request is answered with 200, the stats table
    is the frame without columns. *)
Lemma fetch_vehicle_stats_unanswered (http : value -> reply)
    (vehicle_ids : list value) :
  (forall vid, In vid vehicle_ids ->
               exists r, http vid = Ok r /\ status_code r <> 200%Z) ->
  fetch_vehicle_stats http vehicle_ids = (Ok no_frame, []).
Proof.
  intros Hall. unfold fetch_vehicle_stats.
  assert (Hloop : forall stats, stats_loop http vehicle_ids stats = Ok stats).
  { induction vehicle_ids as [| vid rest IH]; intros stats; cbn;
      [reflexivity |].
    destruct (Hall vid (or_introl eq_refl)) as [r [-> Hr]]. cbn.
    apply Z.eqb_neq in Hr. rewrite Hr. apply IH.
    intros vid' Hin. apply Hall. now right. }
  rewrite Hloop. reflexivity.
Qed.

(** A left merge against a right table that has the key column and no row
    keeps every left row, in order, padded with missing values. *)
Lemma merge_left_without_matches (left right : DataFrame) (lk rk : string) :
  has_column left lk -> has_column right rk -> data right = [] ->
  lk <> rk ->
  exists df,
    merge left right lk rk ("_x", "_y") = Ok df
    /\ len df = len left
    /\ data df
       = map (fun l => l ++ map (fun _ => nan) (columns right))%list
             (data left).
Proof.
  intros [lcells Hl] [rcells Hr] Hrows Hne.
  unfold column in Hl, Hr. unfold merge.
  destruct (index_of rk (columns right)) as [ri |]; [| discriminate].
  destruct (index_of lk (columns left)) as [li |]; [| discriminate].
  apply String.eqb_neq in Hne. rewrite Hne. cbn [andb].
  rewrite Hrows. cbn [filter].
  assert (Hcheck : forall overlap : list string,
             match overlap with
             | _ :: _ =>
               if ("_x" =? EmptyString) && ("_y" =? EmptyString)
               then Raise ValueError else Ok tt
             | [] => Ok tt
             end = Ok tt) by (intros [|]; reflexivity).
  rewrite Hcheck. cbn [bind].
  eexists. split; [reflexivity |].
  unfold len. cbn [data].
  assert (Hflat : forall rows : list (list value),
             flat_map (fun l => [l ++ map (fun _ => nan) (columns right)])%list
                      rows
             = map (fun l => l ++ map (fun _ => nan) (columns right))%list
                   rows).
  { induction rows as [| l rows IH]; cbn; [reflexivity | now rewrite IH]. }
  rewrite Hflat. split; [apply length_map | reflexivity].
Qed.

(** C3, what the code does. With the stats table that an unanswered fetch
    gives, the frame without columns, the first merge of [main] raises
    [KeyError] whatever the other tables hold: no row is produced. *)
Theorem merge_data_without_stats_raises :
  forall vehicles_df locations_df assignments_df drivers_df : DataFrame,
    merge_data vehicles_df no_frame locations_df assignments_df drivers_df
    = Raise (KeyError "vehicle_id").
Proof. reflexivity. Qed.

(** ** Further properties of the code *)

Import samsara fleetrock.

(** *** Tables built from records with the same keys *)

Lemma mem_In (c : string) (l : list string) : mem c l = true <-> In c l.
Proof.
  unfold mem. rewrite existsb_exists. split.
  - intros [x [Hin Heq]]. apply String.eqb_eq in Heq. now subst.
  - intros Hin. exists c. split; [exact Hin | apply String.eqb_refl].
Qed.

Lemma uniq_seen (seen l : list string) :
  (forall c, In c l -> mem c seen = true) -> uniq seen l = [].
Proof.
  induction l as [| c l IH]; intros Hall; cbn; [reflexivity |].
  rewrite (Hall c (or_introl eq_refl)). apply IH.
  intros c' Hin. apply Hall. now right.
Qed.

Lemma uniq_app (a b : list string) :
  forall seen,
    uniq seen (a ++ b)
    = (uniq seen a ++ uniq (rev (uniq seen a) ++ seen) b)%list.
Proof.
  induction a as [| c a IH]; intros seen; cbn; [reflexivity |].
  destruct (mem c seen); [apply IH |].
  cbn. rewrite IH. now rewrite <- app_assoc.
Qed.

Lemma index_of_nth {A} (f : string -> A) (default : A) (c : string) :
  forall (K : list string) (i : nat),
    index_of c K = Some i -> nth i (map f K) default = f c.
Proof.
  induction K as [| k K IH]; intros i; cbn; [discriminate |].
  destruct (String.eqb_spec k c) as [-> | Hne].
  - now intros [= <-].
  - destruct (index_of c K) as [j |]; [| discriminate].
    intros [= <-]. now apply IH.
Qed.

Section SameKeys.

Variable K : list string.
Hypothesis HK : uniq [] K = K.

Variable records : list (list (string * value)).
Hypothesis Hsome : records <> [].
Hypothesis Hkeys : Forall (fun r => map fst r = K) records.

(** Records that all carry the keys [K] give the columns [K] and one row
    per record. *)
Lemma from_records_same_keys :
  from_records records
  = {| columns := K; data := map (fun r => map (cell_of r) K) records |}.
Proof.
  assert (Hcols : uniq [] (List.concat (map (map fst) records)) = K).
  { pose proof Hkeys as Hall. pose proof Hsome as Hne.
    destruct records as [| r rest]; [contradiction |].
    apply Forall_cons_iff in Hall. destruct Hall as [Hr Hrest].
    cbn [map List.concat]. rewrite Hr, uniq_app, HK.
    rewrite uniq_seen; [apply app_nil_r |].
    intros c Hin. apply mem_In, in_or_app. left. apply -> in_rev.
    apply in_concat in Hin. destruct Hin as [ks [Hks Hc]].
    apply in_map_iff in Hks. destruct Hks as [r' [<- Hr']].
    rewrite Forall_forall in Hrest. now rewrite (Hrest r' Hr') in Hc. }
  unfold from_records. rewrite Hcols. reflexivity.
Qed.

Lemma column_same_keys (c : string) (i : nat) :
  index_of c K = Some i ->
  column (from_records records) c = Ok (map (fun r => cell_of r c) records).
Proof.
  intros Hi. rewrite from_records_same_keys. unfold column. cbn [columns data].
  rewrite Hi, map_map. f_equal. apply map_ext. intros r.
  now apply index_of_nth.
Qed.

End SameKeys.

(** *** From the fetch of repair orders to their metrics *)

Lemma float_field_float (ro : value) (k : string) (v : value) :
  float_field ro k = Ok v -> exists x, v = VFloat x.
Proof.
  unfold float_field. destruct (get ro k (VInt 0)) as [w | e]; cbn;
    [| discriminate].
  destruct (to_float w) as [x | e]; cbn; [| discriminate].
  intros [= <-]. eauto.
Qed.

Lemma processed_ro_record (now : datetime) (n : nat) (ro : value)
    (row : list (string * value)) :
  result (processed_ro now n ro) = Ok row -> ro_record row.
Proof.
  intros H. unfold processed_ro in H.
  repeat (apply bindM_ok in H; destruct H as [? [? H]]).
  repeat match goal with
         | E : result (lift _) = Ok _ |- _ =>
           unfold lift, result in E; cbn [fst] in E
         end.
  repeat match goal with
         | E : float_field _ _ = Ok _ |- _ =>
           apply float_field_float in E; destruct E as [? ->]
         end.
  cbn in H. injection H as <-.
  split; [reflexivity |]. repeat split; eexists; reflexivity.
Qed.

Lemma process_all_records (now : nat -> datetime) (batch : list value) :
  forall processed_ros rows,
    Forall ro_record processed_ros ->
    result (process_all now batch processed_ros) = Ok rows ->
    Forall ro_record rows.
Proof.
  induction batch as [| ro rest IH]; intros processed_ros rows Hacc;
    cbn [process_all].
  - now intros [= <-].
  - intros H. apply bindM_ok in H. destruct H as [row [Hrow H]].
    apply (IH (processed_ros ++ [row])%list rows); [| exact H].
    apply Forall_app. split; [exact Hacc |].
    constructor; [| constructor]. exact (processed_ro_record _ _ _ _ Hrow).
Qed.

Lemma ro_records_table (rows : list (list (string * value))) :
  rows <> [] -> Forall ro_record rows ->
  ro_table (from_records rows) /\ len (from_records rows) = List.length rows.
Proof.
  intros Hne Hrows.
  assert (Hkeys : Forall (fun r => map fst r = ro_columns) rows)
    by (eapply Forall_impl; [| exact Hrows]; now intros r [Hr _]).
  rewrite (from_records_same_keys ro_columns eq_refl rows Hne Hkeys).
  split; [split; [reflexivity |] | apply length_map].
  cbn [data]. apply Forall_map.
  eapply Forall_impl; [| exact Hrows]. now intros r [_ Hr].
Qed.

(** The table that the fetch returns is the frame without columns or a
    repair-order table with at least one row. *)
Lemma fetch_repair_orders_table (token : option string)
    (now : nat -> datetime) (http : reply) :
  exists df,
    result (fetch_repair_orders token now http) = Ok df
    /\ (df = no_frame \/ ro_table df).
Proof.
  unfold fetch_repair_orders.
  destruct (no_token token); [exists no_frame; now split; [| left] |].
  rewrite try_except_all.
  match goal with
  | |- context [match ?body with _ => _ end] =>
    destruct body as [[df | e] evs] eqn:Hbody
  end; cbn [result fst];
    [| exists no_frame; now split; [| left]].
  exists df. split; [reflexivity |].
  assert (H := f_equal result Hbody). cbn [result fst] in H.
  fold (@result DataFrame) in H.
  clear Hbody. apply bindM_ok in H. destruct H as [response [_ H]].
  destruct (status_code response =? 200)%Z.
  - repeat (apply bindM_ok in H; destruct H as [? [? H]]).
    cbn in H. injection H as <-.
    match goal with
    | Hloop : result (process_all now _ []) = Ok ?rows |- _ =>
      pose proof (process_all_records now _ [] rows (Forall_nil _) Hloop)
        as Hrows;
      destruct rows as [| r rows]; [now left | right]
    end.
    apply ro_records_table; [discriminate | exact Hrows].
  - cbn in H. injection H as <-. now left.
Qed.

Lemma select_map_filter {A} (g : A -> bool) (l : list A) :
  select l (map g l) = filter g l.
Proof.
  induction l as [| x l IH]; cbn; [reflexivity |].
  destruct (g x); now rewrite IH.
Qed.

Lemma where_eq_filter (cols : list string) (rows : list (list value))
    (c s : string) (i : nat) :
  index_of c cols = Some i ->
  where_eq {| columns := cols; data := rows |} c s
  = Ok {| columns := cols;
          data := filter (fun r => eq_str (nth i r nan) s) rows |}.
Proof.
  intros Hi. unfold where_eq, column, where_. cbn [columns data].
  rewrite Hi. cbn [bind]. now rewrite map_map, select_map_filter.
Qed.

Lemma column_at (cols : list string) (rows : list (list value))
    (c : string) (i : nat) :
  index_of c cols = Some i ->
  column {| columns := cols; data := rows |} c
  = Ok (map (fun r => nth i r nan) rows).
Proof. intros Hi. unfold column. cbn [columns data]. now rewrite Hi. Qed.

Lemma numbers_of_numbers (cells : list value) :
  Forall (fun v => (exists d, v = VInt d) \/ (exists x, v = VFloat x)) cells ->
  exists xs, numbers cells = Ok xs.
Proof.
  induction 1 as [| v cells Hv _ [xs IH]]; cbn; [eauto |].
  destruct Hv as [[d ->] | [x ->]]; rewrite IH; cbn; [eauto |].
  destruct x; eauto.
Qed.

Lemma filter_three_ways {A} (g1 g2 g3 : A -> bool) (l : list A) :
  (forall x, g1 x = true -> g2 x = false /\ g3 x = false) ->
  (forall x, g2 x = true -> g3 x = false) ->
  (List.length (filter g1 l) + List.length (filter g2 l)
   + List.length (filter g3 l) <= List.length l)%nat.
Proof.
  intros H1 H2. induction l as [| x l IH]; cbn; [lia |].
  destruct (g1 x) eqn:E1.
  - destruct (H1 x E1) as [-> ->]. cbn. lia.
  - destruct (g2 x) eqn:E2.
    + rewrite (H2 x E2). cbn. lia.
    + destruct (g3 x); cbn; lia.
Qed.

Lemma eq_str_exclusive (v : value) (s t : string) :
  s <> t -> eq_str v s = true -> eq_str v t = false.
Proof.
  intros Hne. destruct v; cbn; try discriminate.
  intros Hs. apply String.eqb_eq in Hs. subst. now apply String.eqb_neq.
Qed.

(** The metrics of a repair-order table with rows, entry by entry. *)
Lemma ro_metrics_of_ro_rows (rows : list (list value)) :
  rows <> [] ->
  Forall ro_row rows ->
  exists avg_days cost avg_hours,
    calculate_ro_metrics {| columns := ro_columns; data := rows |}
    = Ok {| total_ros := int_of_nat (List.length rows);
            open_ros := int_of_nat
                          (List.length
                             (filter (fun r => eq_str (nth 3 r nan) "open")
                                     rows));
            closed_ros := int_of_nat
                            (List.length
                               (filter (fun r => eq_str (nth 3 r nan) "closed")
                                       rows));
            pending_ros := int_of_nat
                             (List.length
                                (filter
                                   (fun r => eq_str (nth 3 r nan) "pending")
                                   rows));
            avg_days_open := avg_days;
            total_cost := cost;
            avg_labor_hours := avg_hours;
            unassigned_ros := int_of_nat
                                (List.length
                                   (filter
                                      (fun r => eq_str (nth 16 r nan)
                                                       "Unassigned")
                                      rows)) |}.
Proof.
  intros Hne Hrows. unfold calculate_ro_metrics.
  assert (Hempty : empty {| columns := ro_columns; data := rows |} = false)
    by (destruct rows; [contradiction | reflexivity]).
  rewrite Hempty.
  rewrite !(where_eq_filter ro_columns rows "status" _ 3 eq_refl).
  rewrite (where_eq_filter ro_columns rows "technician" _ 16 eq_refl).
  cbn [bind].
  set (opened := filter (fun r => eq_str (nth 3 r nan) "open") rows).
  assert (Hdays : exists v,
             (if negb (empty {| columns := ro_columns; data := opened |})
              then
                cells <- column {| columns := ro_columns; data := opened |}
                                "days_open";
                series_mean cells
              else Ok (VInt 0)) = Ok v).
  { destruct (empty {| columns := ro_columns; data := opened |});
      cbn [negb]; [eauto |].
    rewrite (column_at ro_columns opened "days_open" 7 eq_refl).
    cbn [bind].
    destruct (numbers_of_numbers (map (fun r => nth 7 r nan) opened))
      as [xs Hxs].
    - apply Forall_map. unfold opened.
      apply Forall_forall. intros r Hr. apply filter_In in Hr.
      rewrite Forall_forall in Hrows.
      destruct (Hrows r (proj1 Hr)) as [[d Hd] _]. left. exists d. exact Hd.
    - apply (series_mean_numeric _ _ Hxs). }
  destruct Hdays as [avg_days Hdays]. rewrite Hdays. cbn [bind].
  rewrite (column_at ro_columns rows "total_cost" 12 eq_refl).
  cbn [bind].
  destruct (numbers_of_numbers (map (fun r => nth 12 r nan) rows))
    as [costs Hcosts].
  { apply Forall_map. eapply Forall_impl; [| exact Hrows].
    intros r (_ & [x Hx] & _). right. exists x. exact Hx. }
  destruct (series_sum_numeric _ _ Hcosts) as [cost Hcost].
  rewrite Hcost. cbn [bind negb].
  rewrite (column_at ro_columns rows "labor_hours" 13 eq_refl).
  cbn [bind].
  destruct (numbers_of_numbers (map (fun r => nth 13 r nan) rows))
    as [hours Hhours].
  { apply Forall_map. eapply Forall_impl; [| exact Hrows].
    intros r (_ & _ & [x Hx]). right. exists x. exact Hx. }
  destruct (series_mean_numeric _ _ Hhours) as [avg_hours Havg].
  rewrite Havg. cbn [bind].
  exists avg_days, cost, avg_hours. reflexivity.
Qed.

(** X1. On a repair-order table (the schema of the fetch; any selection of
    its rows is one too) the metrics are always produced.  The total is
    the number of rows; the open, closed and pending counts are disjoint,
    so their sum is at most the total, and so is the unassigned count. *)
Theorem ro_metrics_on_ro_table :
  forall df : DataFrame,
    ro_table df ->
    exists (m : ro_metrics) (o c p u : nat),
      calculate_ro_metrics df = Ok m
      /\ total_ros m = int_of_nat (len df)
      /\ open_ros m = int_of_nat o
      /\ closed_ros m = int_of_nat c
      /\ pending_ros m = int_of_nat p
      /\ unassigned_ros m = int_of_nat u
      /\ (o + c + p <= len df)%nat
      /\ (u <= len df)%nat.
Proof.
  intros [cols rows] [Hcols Hrows]. cbn [columns data] in Hcols, Hrows.
  subst cols. destruct rows as [| row rows].
  - exists zero_ro_metrics, 0%nat, 0%nat, 0%nat, 0%nat.
    cbn. repeat split; lia.
  - destruct (ro_metrics_of_ro_rows (row :: rows) ltac:(discriminate) Hrows)
      as (avg_days & cost & avg_hours & ->).
    do 5 eexists. split; [reflexivity |]. unfold len.
    cbn [data total_ros open_ros closed_ros pending_ros unassigned_ros].
    repeat split.
    + apply filter_three_ways.
      * intros r Hr. split; eapply eq_str_exclusive; try exact Hr; discriminate.
      * intros r Hr. eapply eq_str_exclusive; try exact Hr; discriminate.
    + apply filter_length_le.
Qed.

Lemma ro_metrics_on_ro_table_witness :
  exists m,
    calculate_ro_metrics
      {| columns := ro_columns;
         data := [map (cell_of [("status", VStr "open"); ("days_open", VInt 3);
                               ("total_cost", VFloat (Finite 120));
                               ("labor_hours", VFloat (Finite 2))])
                      ro_columns] |} = Ok m
    /\ total_ros m = VInt 1 /\ open_ros m = VInt 1.
Proof.
  destruct (ro_metrics_on_ro_table
              {| columns := ro_columns;
                 data := [map (cell_of [("status", VStr "open");
                                        ("days_open", VInt 3);
                                        ("total_cost", VFloat (Finite 120));
                                        ("labor_hours", VFloat (Finite 2))])
                              ro_columns] |})
    as (m & o & c & p & u & Hm & Htotal & Hopen & _).
  - split; [reflexivity |]. constructor; [| constructor].
    repeat split; eexists; reflexivity.
  - exists m. split; [exact Hm |]. split; [exact Htotal |].
    cbn in Hm. injection Hm as <-. reflexivity.
Defined.

(** X2. The body of the fetch and the metrics compose.  Whatever the
    token, the clock and the reply to the request (any status, any JSON,
    or an exception), the body of [fetch_repair_orders] returns a table,
    and on that table [calculate_ro_metrics] returns metrics whose total
    is the number of rows. *)
Theorem metrics_of_fetched_orders :
  forall (token : option string) (now : nat -> datetime) (http : reply),
  exists (df : DataFrame) (m : ro_metrics),
    result (fetch_repair_orders token now http) = Ok df
    /\ calculate_ro_metrics df = Ok m
    /\ total_ros m = int_of_nat (len df).
Proof.
  intros token now http.
  destruct (fetch_repair_orders_table token now http) as [df [Hdf Hshape]].
  exists df. destruct Hshape as [-> | Htable].
  - exists zero_ro_metrics. now repeat split.
  - destruct df as [cols rows]. destruct Htable as [Hcols Hrows].
    cbn [columns data] in Hcols, Hrows. subst cols.
    destruct rows as [| row rows].
    + exists zero_ro_metrics. now repeat split.
    + destruct (ro_metrics_of_ro_rows (row :: rows) ltac:(discriminate) Hrows)
        as (avg_days & cost & avg_hours & Hm).
      eexists. split; [exact Hdf |]. split; [exact Hm | reflexivity].
Qed.

(** *** The stats of the vehicles *)

Lemma status_of_label (s : value) (status : string) :
  status_of s = Ok status ->
  status = "moving" \/ status = "idle" \/ status = "offline".
Proof.
  unfold status_of.
  destruct (get s "speedMilesPerHour" (VInt 0)) as [speed | e]; cbn;
    [| discriminate].
  destruct (gt_int speed 0) as [[|] | e]; cbn; try discriminate.
  - intros [= <-]. now left.
  - destruct (get s "engineState" VNone) as [engine | e]; cbn;
      [| discriminate].
    destruct (eq_str engine "Running"); intros [= <-]; auto.
Qed.

(** A record of the stats loop: the six keys, the vehicle it was asked
    for, and one of the three labels. *)
Lemma stats_record_shape (vid s : value) (r : list (string * value)) :
  stats_record vid s = Ok r ->
  map fst r = stats_columns
  /\ cell_of r "vehicle_id" = vid
  /\ labelled (map (cell_of r) stats_columns).
Proof.
  unfold stats_record.
  repeat match goal with
         | |- bind ?m _ = Ok _ -> _ =>
           let E := fresh "E" in
           destruct m eqn:E; cbn [bind]; [| discriminate]
         end.
  intros [= <-]. split; [reflexivity |]. split; [reflexivity |].
  match goal with
  | E : status_of _ = Ok _ |- _ =>
    destruct (status_of_label _ _ E) as [-> | [-> | ->]]
  end; unfold labelled; cbn; auto.
Qed.

Lemma stats_record_dict (vid : value) (d : list (string * value)) :
  number (field d "speedMilesPerHour" (VInt 0)) ->
  exists r, stats_record vid (VDict d) = Ok r.
Proof.
  intros Hnum. unfold stats_record, status_of. cbn [get bind].
  fold (field d "speedMilesPerHour" (VInt 0)).
  destruct (gt_int_number _ 0 Hnum) as [b [-> _]]. cbn [bind].
  destruct b; cbn [bind]; eauto.
Qed.

Section StatsLoop.

Variable http : value -> reply.

(** The loop keeps what it has and appends one record per vehicle that is
    answered with 200, in the order of the requests. *)
Lemma stats_loop_answered (vehicle_ids : list value) :
  Forall (fun vid => telemetry (http vid)) vehicle_ids ->
  forall stats,
  exists records,
    stats_loop http vehicle_ids stats = Ok (stats ++ records)%list
    /\ map (fun r => cell_of r "vehicle_id") records
       = answered http vehicle_ids
    /\ Forall (fun r => map fst r = stats_columns
                        /\ labelled (map (cell_of r) stats_columns)) records.
Proof.
  induction 1 as [| vid rest (response & Hreply & Hbody) _ IH];
    intros stats; cbn [stats_loop answered filter].
  - exists []. now rewrite app_nil_r.
  - rewrite Hreply. cbn [bind].
    destruct (status_code response =? 200)%Z eqn:Hcode.
    + apply Z.eqb_eq in Hcode. destruct (Hbody Hcode) as (d & -> & Hnum).
      cbn [bind]. destruct (stats_record_dict vid d Hnum) as [r Hr].
      rewrite Hr. cbn [bind].
      destruct (stats_record_shape _ _ _ Hr) as (Hkeys & Hvid & Hlabel).
      destruct (IH (stats ++ [r])%list) as (records & -> & Hids & Hall).
      exists (r :: records). rewrite <- app_assoc. split; [reflexivity |].
      split; [cbn; now rewrite Hvid, Hids | now constructor].
    + apply IH.
Qed.

(** An exception of one request ends the loop with an exception. *)
Lemma stats_loop_raises (vehicle_ids : list value) (vid : value) (e : exn) :
  In vid vehicle_ids -> http vid = Raise e ->
  forall stats, exists e', stats_loop http vehicle_ids stats = Raise e'.
Proof.
  intros Hin Hvid. induction vehicle_ids as [| v rest IH]; [contradiction |].
  intros stats. cbn [stats_loop].
  destruct (http v) as [response | e0] eqn:Hv; cbn [bind]; [| eauto].
  assert (Hrest : In vid rest).
  { destruct Hin as [-> | Hin]; [congruence | exact Hin]. }
  destruct (status_code response =? 200)%Z; [| now apply IH].
  destruct (json response) as [s | e1]; cbn [bind]; [| eauto].
  destruct (stats_record v s) as [r | e2]; cbn [bind]; [| eauto].
  now apply IH.
Qed.

End StatsLoop.

(** X3. When every stats request is answered (with any status) and the 200
    answers carry a JSON object with a numeric speed, the stats table has
    exactly one row per vehicle answered with 200, in request order, each
    labelled moving, idle or offline; nothing is logged.  With no such
    vehicle the table is the frame without columns. *)
Theorem fetch_vehicle_stats_rows :
  forall (http : value -> reply) (vehicle_ids : list value),
    Forall (fun vid => telemetry (http vid)) vehicle_ids ->
    exists df,
      fetch_vehicle_stats http vehicle_ids = (Ok df, [])
      /\ len df = List.length (answered http vehicle_ids)
      /\ (answered http vehicle_ids = [] -> df = no_frame)
      /\ (answered http vehicle_ids <> [] ->
          columns df = stats_columns
          /\ column df "vehicle_id" = Ok (answered http vehicle_ids)
          /\ Forall labelled (data df)).
Proof.
  intros http vehicle_ids Hall.
  destruct (stats_loop_answered http vehicle_ids Hall [])
    as (records & Hloop & Hids & Hshape).
  cbn [app] in Hloop.
  unfold fetch_vehicle_stats. rewrite try_except_all. unfold lift.
  rewrite Hloop. cbn [bindM ret app].
  exists (from_records records). split; [reflexivity |].
  assert (Hkeys : Forall (fun r => map fst r = stats_columns) records)
    by (eapply Forall_impl; [| exact Hshape]; now intros r [Hr _]).
  rewrite <- Hids.
  destruct records as [| r records].
  - split; [reflexivity |]. split; [reflexivity |].
    intros Hne. now contradiction Hne.
  - pose proof (from_records_same_keys stats_columns eq_refl (r :: records)
                  ltac:(discriminate) Hkeys) as Hframe.
    split; [rewrite Hframe; unfold len; cbn [data]; now rewrite !length_map |].
    split; [discriminate |]. intros _.
    split; [now rewrite Hframe |]. split.
    + apply (column_same_keys stats_columns eq_refl (r :: records)
               ltac:(discriminate) Hkeys "vehicle_id" 0 eq_refl).
    + rewrite Hframe. cbn [data]. apply Forall_map.
      eapply Forall_impl; [| exact Hshape]. now intros r' [_ Hr'].
Qed.

Lemma fetch_vehicle_stats_rows_witness :
  exists df,
    fetch_vehicle_stats stats_of_v1 [VStr "v1"; VStr "v2"] = (Ok df, [])
    /\ column df "vehicle_id" = Ok [VStr "v1"].
Proof.
  destruct (fetch_vehicle_stats_rows stats_of_v1 [VStr "v1"; VStr "v2"])
    as (df & Hdf & _ & _ & Hrows).
  - repeat constructor.
    + eexists. split; [reflexivity |]. intros _. eexists.
      split; [reflexivity |]. constructor.
    + eexists. split; [reflexivity |]. discriminate.
  - exists df. split; [exact Hdf |].
    apply Hrows. discriminate.
Defined.

(** X4. One stats request that fails with an exception discards the stats
    of every vehicle: the table is the frame without columns and one error
    is logged. *)
Theorem fetch_vehicle_stats_one_failure :
  forall (http : value -> reply) (vehicle_ids : list value) (vid : value)
         (e : exn),
    In vid vehicle_ids ->
    http vid = Raise e ->
    exists e',
      fetch_vehicle_stats http vehicle_ids
      = (Ok no_frame, [Log ERROR "Error fetching stats: " (Some e')]).
Proof.
  intros http vehicle_ids vid e Hin Hvid.
  destruct (stats_loop_raises http vehicle_ids vid e Hin Hvid []) as [e' He'].
  exists e'. unfold fetch_vehicle_stats. now rewrite try_except_all, He'.
Qed.

Lemma fetch_vehicle_stats_one_failure_witness :
  exists e',
    fetch_vehicle_stats
      (fun vid => match vid with
                  | VStr "v2" => Raise RequestException
                  | _ => stats_of_v1 vid
                  end)
      [VStr "v1"; VStr "v2"]
    = (Ok no_frame, [Log ERROR "Error fetching stats: " (Some e')]).
Proof.
  apply (fetch_vehicle_stats_one_failure _ _ (VStr "v2") RequestException).
  - right. now left.
  - reflexivity.
Defined.

(** *** The fleet metrics of a stats table *)

Lemma filter_partition {A} (g1 g2 g3 : A -> bool) (l : list A) :
  Forall (fun x => (g1 x = true /\ g2 x = false /\ g3 x = false)
                   \/ (g1 x = false /\ g2 x = true /\ g3 x = false)
                   \/ (g1 x = false /\ g2 x = false /\ g3 x = true)) l ->
  (List.length (filter g1 l) + List.length (filter g2 l)
   + List.length (filter g3 l) = List.length l)%nat.
Proof.
  induction 1 as [| x l Hx _ IH]; cbn; [reflexivity |].
  destruct Hx as [(-> & -> & ->) | [(-> & -> & ->) | (-> & -> & ->)]];
    cbn; lia.
Qed.

Lemma number_cases (v : value) :
  number v -> (exists d, v = VInt d) \/ (exists x, v = VFloat x).
Proof. intros [z | x]; eauto. Qed.

Lemma mapM_lt_int (k : Z) (cells : list value) :
  Forall number cells ->
  mapM (fun v => lt_int v k) cells = Ok (map (fun v => under v k) cells).
Proof.
  induction 1 as [| v cells Hv _ IH]; cbn; [reflexivity |].
  now rewrite (lt_int_under v k Hv), IH.
Qed.

(** The fleet metrics of a stats table with rows, entry by entry. *)
Lemma fleet_metrics_of_telemetry (vehicles_df : DataFrame)
    (rows : list (list value)) :
  empty vehicles_df = false ->
  rows <> [] ->
  Forall telemetry_row rows ->
  exists speed total,
    calculate_fleet_metrics vehicles_df
                            {| columns := stats_columns; data := rows |}
    = Ok {| total_vehicles := int_of_nat (len vehicles_df);
            moving := int_of_nat
                        (List.length
                           (filter (fun r => eq_str (nth 5 r nan) "moving")
                                   rows));
            idle := int_of_nat
                      (List.length
                         (filter (fun r => eq_str (nth 5 r nan) "idle") rows));
            offline := int_of_nat
                         (List.length
                            (filter (fun r => eq_str (nth 5 r nan) "offline")
                                    rows));
            avg_speed := speed;
            total_engine_hours := total;
            low_fuel := int_of_nat
                          (List.length
                             (filter (fun r => under (nth 2 r nan) 20)
                                     rows)) |}.
Proof.
  intros Hvehicles Hne Hrows.
  unfold calculate_fleet_metrics. rewrite Hvehicles. cbn [orb].
  assert (Hempty : empty {| columns := stats_columns; data := rows |} = false)
    by (destruct rows; [contradiction | reflexivity]).
  rewrite Hempty.
  rewrite !(where_eq_filter stats_columns rows "status" _ 5 eq_refl).
  cbn [bind].
  rewrite (column_at stats_columns rows "speed_mph" 1 eq_refl). cbn [bind].
  destruct (numbers_of_numbers (map (fun r => nth 1 r nan) rows))
    as [speeds Hspeeds].
  { apply Forall_map. eapply Forall_impl; [| exact Hrows].
    intros r (_ & Hs & _). apply number_cases. exact Hs. }
  destruct (series_mean_numeric _ _ Hspeeds) as [speed ->]. cbn [bind].
  rewrite (column_at stats_columns rows "engine_hours" 3 eq_refl).
  cbn [bind].
  destruct (numbers_of_numbers (map (fun r => nth 3 r nan) rows))
    as [hours Hhours].
  { apply Forall_map. eapply Forall_impl; [| exact Hrows].
    intros r (_ & _ & _ & Hh). apply number_cases. exact Hh. }
  destruct (series_sum_numeric _ _ Hhours) as [total ->]. cbn [bind].
  unfold where_lt.
  rewrite (column_at stats_columns rows "fuel_percent" 2 eq_refl).
  cbn [bind]. rewrite mapM_lt_int.
  2:{ apply Forall_map. eapply Forall_impl; [| exact Hrows].
      intros r (_ & _ & Hf & _). exact Hf. }
  cbn [bind]. unfold where_. cbn [columns data].
  rewrite map_map, select_map_filter.
  exists speed, total. reflexivity.
Qed.

(** X5. On a stats table whose rows carry one of the three labels and
    numbers for speed, fuel and engine hours, the fleet metrics are always
    produced; every row is counted once among moving, idle and offline,
    and the low-fuel count is at most the number of rows. *)
Theorem fleet_metrics_partition :
  forall vehicles_df stats_df : DataFrame,
    empty vehicles_df = false ->
    columns stats_df = stats_columns ->
    Forall telemetry_row (data stats_df) ->
    exists (m : fleet_metrics) (a b c low : nat),
      calculate_fleet_metrics vehicles_df stats_df = Ok m
      /\ moving m = int_of_nat a
      /\ idle m = int_of_nat b
      /\ offline m = int_of_nat c
      /\ low_fuel m = int_of_nat low
      /\ (a + b + c = len stats_df)%nat
      /\ (low <= len stats_df)%nat.
Proof.
  intros vehicles_df [cols rows] Hvehicles Hcols Hrows.
  cbn [columns data] in Hcols, Hrows. subst cols.
  destruct rows as [| row rows].
  - exists zero_fleet_metrics, 0%nat, 0%nat, 0%nat, 0%nat.
    unfold calculate_fleet_metrics. rewrite Hvehicles.
    cbn. repeat split; lia.
  - destruct (fleet_metrics_of_telemetry vehicles_df (row :: rows) Hvehicles
                ltac:(discriminate) Hrows) as (speed & total & ->).
    do 5 eexists. split; [reflexivity |]. unfold len.
    cbn [data moving idle offline low_fuel].
    repeat split.
    + apply filter_partition. eapply Forall_impl; [| exact Hrows].
      intros r (Hlabel & _). unfold labelled in Hlabel.
      change (cell stats_columns r "status") with (nth 5 r nan) in Hlabel.
      destruct Hlabel as [-> | [-> | ->]]; cbn; auto.
    + apply filter_length_le.
Qed.

Lemma fleet_metrics_partition_witness :
  exists m,
    calculate_fleet_metrics
      one_vehicle
      {| columns := stats_columns;
         data := [[VStr "v1"; VInt 90; VInt 15; VInt 0; VInt 0;
                   VStr "moving"]] |} = Ok m
    /\ moving m = VInt 1 /\ low_fuel m = VInt 1.
Proof.
  destruct (fleet_metrics_partition
              one_vehicle
              {| columns := stats_columns;
                 data := [[VStr "v1"; VInt 90; VInt 15; VInt 0; VInt 0;
                           VStr "moving"]] |})
    as (m & a & b & c & low & Hm & _).
  - reflexivity.
  - reflexivity.
  - constructor; [| constructor].
    split; [left; reflexivity |]. repeat split; constructor.
  - exists m. split; [exact Hm |].
    cbn in Hm. injection Hm as <-. split; reflexivity.
Defined.

(** *** The load of the dashboard *)

Lemma index_of_none (k : string) (l : list string) :
  ~ In k l -> index_of k l = None.
Proof.
  induction l as [| c l IH]; cbn; [reflexivity |]. intros Hnot.
  destruct (String.eqb_spec c k) as [-> | Hne];
    [contradiction Hnot; now left |].
  rewrite IH; [reflexivity |]. intros Hin. apply Hnot. now right.
Qed.

Lemma index_of_some_mem (k : string) (l : list string) (i : nat) :
  index_of k l = Some i -> mem k l = true.
Proof.
  intros Hi. apply mem_In. revert i Hi.
  induction l as [| c l IH]; cbn; [discriminate |]. intros i.
  destruct (String.eqb_spec c k) as [-> | Hne]; [now left |].
  destruct (index_of k l) as [j |]; [| discriminate].
  intros _. right. now apply (IH j).
Qed.

Lemma merge_without_right_key (left right : DataFrame) (lk rk : string)
    (suffixes : string * string) :
  index_of rk (columns right) = None ->
  merge left right lk rk suffixes = Raise (KeyError rk).
Proof. intros Hr. unfold merge. now rewrite Hr. Qed.

Lemma merge_without_left_key (left right : DataFrame) (lk rk : string)
    (suffixes : string * string) (ri : nat) :
  index_of rk (columns right) = Some ri ->
  index_of lk (columns left) = None ->
  merge left right lk rk suffixes = Raise (KeyError lk).
Proof. intros Hr Hl. unfold merge. now rewrite Hr, Hl. Qed.

(** The columns of a merge on two different key labels. *)
Lemma merge_columns (left right : DataFrame) (lk rk : string) (ri li : nat) :
  index_of rk (columns right) = Some ri ->
  index_of lk (columns left) = Some li ->
  lk <> rk ->
  exists df,
    merge left right lk rk ("_x", "_y") = Ok df
    /\ columns df
       = (map (rename (filter (fun c => mem c (columns right))
                              (columns left)) "_x") (columns left)
          ++ map (rename (filter (fun c => mem c (columns right))
                                 (columns left)) "_y") (columns right))%list.
Proof.
  intros Hr Hl Hne. unfold merge. rewrite Hr, Hl.
  apply String.eqb_neq in Hne. rewrite Hne. cbn [andb].
  destruct (filter (fun c => mem c (columns right)) (columns left));
    cbn [bind]; eexists; split; reflexivity.
Qed.

Lemma suffix_y_not_vehicle_id (c : string) : c ++ "_y" <> "vehicle_id".
Proof.
  intros H.
  repeat (destruct c as [| ? c]; cbn in H;
          [discriminate H | injection H as _ H]).
  destruct c; discriminate H.
Qed.

(** After the first two merges no column is called [vehicle_id] any more:
    the stats table and the locations table both bring one, and the
    second merge renames both. *)
Lemma no_vehicle_id_after_locations (lcols : list string) :
  mem "vehicle_id" lcols = true ->
  index_of "vehicle_id"
    (map (rename (filter (fun c => mem c lcols)
                         (vehicle_columns ++ stats_columns)) "_x")
         (vehicle_columns ++ stats_columns)
     ++ map (rename (filter (fun c => mem c lcols)
                            (vehicle_columns ++ stats_columns)) "_y")
            lcols)%list
  = None.
Proof.
  intros Hmem. apply index_of_none.
  set (overlap := filter (fun c => mem c lcols)
                         (vehicle_columns ++ stats_columns)).
  assert (Hov : mem "vehicle_id" overlap = true).
  { apply mem_In, filter_In. split; [| exact Hmem].
    cbn. do 8 right. now left. }
  intros Hin. apply in_app_or in Hin. destruct Hin as [Hin | Hin];
    apply in_map_iff in Hin; destruct Hin as [c [Hc Hin]];
    unfold rename in Hc.
  - cbn in Hin.
    repeat (destruct Hin as [<- | Hin];
            [try rewrite Hov in Hc;
             try match type of Hc with
                 | context [mem ?x overlap] => destruct (mem x overlap)
                 end;
             cbn in Hc; discriminate Hc |]).
    contradiction.
  - destruct (mem c overlap) eqn:Hc'.
    + exact (suffix_y_not_vehicle_id c Hc).
    + subst c. congruence.
Qed.

(** The four merges on a vehicles table and a stats table as the fetchers
    build them: whatever the other three tables hold, a [vehicle_id] key
    is missing at the first, second or third merge. *)
Lemma merge_data_of_fetched_tables
    (vehicles_df stats_df locations_df assignments_df drivers_df : DataFrame) :
  columns vehicles_df = vehicle_columns ->
  stats_df = no_frame \/ columns stats_df = stats_columns ->
  merge_data vehicles_df stats_df locations_df assignments_df drivers_df
  = Raise (KeyError "vehicle_id").
Proof.
  intros Hv [-> | Hs]; [reflexivity |].
  unfold merge_data.
  destruct (merge_columns vehicles_df stats_df "id" "vehicle_id" 0 0)
    as (m1 & -> & Hm1); try (rewrite ?Hv, ?Hs; reflexivity || discriminate).
  rewrite Hv, Hs in Hm1. cbn [bind].
  change (columns m1 = (vehicle_columns ++ stats_columns)%list) in Hm1.
  destruct (index_of "vehicle_id" (columns locations_df)) as [ri |] eqn:Hl.
  2:{ now rewrite (merge_without_right_key _ _ _ _ _ Hl). }
  destruct (merge_columns m1 locations_df "id" "vehicle_id" ri 0 Hl)
    as (m2 & -> & Hm2); try (rewrite ?Hm1; reflexivity || discriminate).
  cbn [bind]. rewrite Hm1 in Hm2.
  assert (Hgone : index_of "vehicle_id" (columns m2) = None).
  { rewrite Hm2. apply no_vehicle_id_after_locations.
    exact (index_of_some_mem _ _ _ Hl). }
  destruct (index_of "vehicle_id" (columns assignments_df)) as [ai |] eqn:Ha.
  - now rewrite (merge_without_left_key _ _ _ _ _ ai Ha Hgone).
  - now rewrite (merge_without_right_key _ _ _ _ _ Ha).
Qed.

Lemma result_try_except_all {A} (body : M A) (handler : exn -> M A) :
  result (try_except body (fun _ => true) handler)
  = match result body with
    | Ok a => Ok a
    | Raise e => result (handler e)
    end.
Proof.
  rewrite try_except_all. now destruct body as [[a | e] evs].
Qed.

Lemma vehicle_record_keys (v : value) (r : list (string * value)) :
  vehicle_record v = Ok r -> map fst r = vehicle_columns.
Proof.
  destruct v; try (cbn; discriminate).
  cbn. now intros [= <-].
Qed.

Lemma vehicles_loop_keys (data : list value) :
  forall processed rows,
    Forall (fun r => map fst r = vehicle_columns) processed ->
    vehicles_loop data processed = Ok rows ->
    Forall (fun r => map fst r = vehicle_columns) rows.
Proof.
  induction data as [| v rest IH]; intros processed rows Hacc;
    cbn [vehicles_loop].
  - now intros [= <-].
  - destruct (vehicle_record v) as [r | e] eqn:Hr; cbn [bind];
      [| discriminate].
    apply IH. apply Forall_app. split; [exact Hacc |].
    constructor; [| constructor]. exact (vehicle_record_keys _ _ Hr).
Qed.

(** The vehicles table is the frame without columns or has the eight
    vehicle columns and at least one row. *)
Lemma fetch_vehicles_table (http : reply) :
  exists df,
    result (fetch_vehicles http) = Ok df
    /\ (df = no_frame \/ (columns df = vehicle_columns /\ empty df = false)).
Proof.
  unfold fetch_vehicles. rewrite result_try_except_all.
  match goal with
  | |- context [match result ?body with _ => _ end] =>
    destruct (result body) as [df | e] eqn:H
  end; [| exists no_frame; now split; [| left]].
  exists df. split; [reflexivity |].
  repeat (apply bindM_ok in H; destruct H as [? [? H]]).
  cbn in H. injection H as <-.
  match goal with
  | Hloop : result (lift (vehicles_loop ?items [])) = Ok ?rs |- _ =>
    pose proof (vehicles_loop_keys items [] rs (Forall_nil _) Hloop) as Hrows;
    destruct rs as [| r rows]; [now left | right]
  end.
  rewrite (from_records_same_keys vehicle_columns eq_refl (r :: rows)
             ltac:(discriminate) Hrows).
  now split.
Qed.

Lemma stats_loop_keys (http : value -> reply) (vehicle_ids : list value) :
  forall stats records,
    Forall (fun r => map fst r = stats_columns) stats ->
    stats_loop http vehicle_ids stats = Ok records ->
    Forall (fun r => map fst r = stats_columns) records.
Proof.
  induction vehicle_ids as [| vid rest IH]; intros stats records Hacc;
    cbn [stats_loop].
  - now intros [= <-].
  - destruct (http vid) as [response | e]; cbn [bind]; [| discriminate].
    destruct (status_code response =? 200)%Z; [| now apply IH].
    destruct (json response) as [s | e]; cbn [bind]; [| discriminate].
    destruct (stats_record vid s) as [r | e] eqn:Hr; cbn [bind];
      [| discriminate].
    apply IH. apply Forall_app. split; [exact Hacc |].
    constructor; [| constructor]. exact (proj1 (stats_record_shape _ _ _ Hr)).
Qed.

(** The stats table is the frame without columns or has the six stats
    columns, whatever the server answers. *)
Lemma fetch_vehicle_stats_table (http : value -> reply)
    (vehicle_ids : list value) :
  exists df,
    result (fetch_vehicle_stats http vehicle_ids) = Ok df
    /\ (df = no_frame \/ columns df = stats_columns).
Proof.
  unfold fetch_vehicle_stats. rewrite result_try_except_all.
  match goal with
  | |- context [match result ?body with _ => _ end] =>
    destruct (result body) as [df | e] eqn:H
  end; [| exists no_frame; now split; [| left]].
  exists df. split; [reflexivity |].
  apply bindM_ok in H. destruct H as [rows [Hloop H]].
  cbn in H. injection H as <-.
  pose proof (stats_loop_keys _ _ [] rows (Forall_nil _) Hloop) as Hrows.
  destruct rows as [| r rows]; [now left | right].
  now rewrite (from_records_same_keys stats_columns eq_refl (r :: rows)
                 ltac:(discriminate) Hrows).
Qed.

Lemma fetch_pairs_returns (what k1 from1 k2 from2 : string) (http : reply) :
  exists df, result (fetch_pairs what k1 from1 k2 from2 http) = Ok df.
Proof.
  unfold fetch_pairs. rewrite result_try_except_all.
  match goal with
  | |- context [match result ?body with _ => _ end] =>
    destruct (result body) as [df | e]
  end; [eauto | exists no_frame; reflexivity].
Qed.

Lemma fetch_vehicle_locations_returns (http : value -> reply)
    (vehicle_ids : list value) :
  exists df, result (fetch_vehicle_locations http vehicle_ids) = Ok df.
Proof.
  unfold fetch_vehicle_locations. rewrite result_try_except_all.
  match goal with
  | |- context [match result ?body with _ => _ end] =>
    destruct (result body) as [df | e]
  end; [eauto | exists no_frame; reflexivity].
Qed.

(** X6. The tables of the fetchers cannot be merged.  When the body of
    [fetch_vehicles] returns a table with at least one vehicle, the four
    merges raise on it and on any table that the body of
    [fetch_vehicle_stats] returns, whatever the locations, assignments
    and drivers tables hold: a stats table without rows has no
    [vehicle_id] column, and otherwise, once the locations are merged in,
    no column is called [vehicle_id] for the merge of the assignments. *)
Theorem fetched_tables_never_merge :
  forall (vehicles : reply) (stats : value -> reply) (vehicle_ids : list value)
         (vehicles_df stats_df locations_df assignments_df drivers_df
          : DataFrame),
    result (fetch_vehicles vehicles) = Ok vehicles_df ->
    empty vehicles_df = false ->
    result (fetch_vehicle_stats stats vehicle_ids) = Ok stats_df ->
    exists e,
      merge_data vehicles_df stats_df locations_df assignments_df drivers_df
      = Raise e.
Proof.
  intros vehicles stats vehicle_ids vehicles_df stats_df locations_df
         assignments_df drivers_df Hv Hrows Hs.
  destruct (fetch_vehicles_table vehicles) as (v & Hv' & Hshape).
  rewrite Hv in Hv'. injection Hv' as <-.
  destruct (fetch_vehicle_stats_table stats vehicle_ids)
    as (s & Hs' & Hstats).
  rewrite Hs in Hs'. injection Hs' as <-.
  destruct Hshape as [-> | [Hcols _]]; [discriminate Hrows |].
  exists (KeyError "vehicle_id").
  now apply merge_data_of_fetched_tables.
Qed.

Lemma fetched_tables_never_merge_witness :
  exists e,
    merge_data (from_records [[("id", VStr "v1"); ("name", VStr "Truck 1");
                               ("vin", VNone); ("make", VNone);
                               ("model", VNone); ("year", VNone);
                               ("license_plate", VStr "ABC-1");
                               ("serial", VNone)];
                              [("id", VStr "v2"); ("name", VNone);
                               ("vin", VNone); ("make", VNone);
                               ("model", VNone); ("year", VNone);
                               ("license_plate", VNone);
                               ("serial", VNone)]])
               (from_records [[("vehicle_id", VStr "v1");
                               ("speed_mph", VInt 90);
                               ("fuel_percent", VInt 15);
                               ("engine_hours", VInt 0);
                               ("odometer_miles", VInt 0);
                               ("status", VStr "moving")]])
               no_frame no_frame no_frame
    = Raise e.
Proof.
  exact (fetched_tables_never_merge
           (answer 200 two_vehicles) stats_of_v1 [VStr "v1"; VStr "v2"]
           _ _ no_frame no_frame no_frame eq_refl eq_refl eq_refl).
Defined.

(** *** The vehicles, the locations, the drivers *)

Lemma vehicles_loop_dicts (items : list value) :
  Forall is_dict items ->
  forall processed,
  exists records,
    vehicles_loop items processed = Ok (processed ++ records)%list
    /\ map (fun r => cell_of r "id") records
       = map (fun v => raw v "id") items
    /\ map (fun r => cell_of r "license_plate") records
       = map (fun v => raw v "licensePlate") items
    /\ Forall (fun r => map fst r = vehicle_columns) records.
Proof.
  induction 1 as [| v items [d ->] _ IH]; intros processed;
    cbn [vehicles_loop].
  - exists []. now rewrite app_nil_r.
  - unfold vehicle_record. cbn [get bind].
    match goal with
    | |- context [vehicles_loop items (processed ++ [?r])%list] =>
      destruct (IH (processed ++ [r])%list) as (records & -> & Hid & Hlp & Hk);
      exists (r :: records)
    end.
    rewrite <- app_assoc. split; [reflexivity |].
    split; [cbn; now rewrite Hid |].
    split; [cbn; now rewrite Hlp | now constructor].
Qed.

(** X7. The vehicles fetch tolerates missing keys.  A vehicles answer
    that is no error status and whose [data] lists JSON objects gives one
    row per object under the eight vehicle columns, with nothing logged,
    whichever keys the objects lack.  The rows are in the order of the
    answer: when the ids are texts the [id] column holds them in that
    order, and when the plates are texts the [license_plate] column holds
    what the objects have under [licensePlate]. *)
Theorem fetch_vehicles_rows :
  forall (response : response) (body : list (string * value))
         (items : list value),
    (status_code response < 400 \/ 600 <= status_code response)%Z ->
    json response = Ok (VDict body) ->
    field body "data" (VList []) = VList items ->
    Forall is_dict items ->
    exists df,
      fetch_vehicles (Ok response) = (Ok df, [])
      /\ len df = List.length items
      /\ (items <> [] -> columns df = vehicle_columns)
      /\ (forall ids : list string,
            items <> [] ->
            map (fun v => raw v "id") items = map VStr ids ->
            column df "id" = Ok (map VStr ids))
      /\ (forall plates : list string,
            items <> [] ->
            map (fun v => raw v "licensePlate") items = map VStr plates ->
            column df "license_plate" = Ok (map VStr plates)).
Proof.
  intros response body items Hstatus Hjson Hdata Hitems.
  destruct (vehicles_loop_dicts items Hitems [])
    as (records & Hloop & Hid & Hlp & Hkeys).
  cbn [app] in Hloop.
  assert (Hok : raise_for_status response = Ok tt).
  { unfold raise_for_status.
    destruct Hstatus as [Hlow | Hhigh].
    - apply Z.ltb_lt in Hlow. rewrite Z.leb_antisym, Hlow. reflexivity.
    - apply Z.leb_le in Hhigh. rewrite Z.ltb_antisym, Hhigh.
      now rewrite andb_false_r. }
  unfold fetch_vehicles. rewrite try_except_all. unfold lift.
  cbn [bindM app]. rewrite Hok. cbn [bindM app]. rewrite Hjson.
  cbn [bindM app get]. fold (field body "data" (VList [])). rewrite Hdata.
  cbn [bindM app iterate]. rewrite Hloop. cbn [bindM app ret].
  exists (from_records records). split; [reflexivity |].
  assert (Hlen : List.length records = List.length items)
    by (rewrite <- (length_map (fun r => cell_of r "id") records), Hid;
        apply length_map).
  destruct records as [| r records].
  - destruct items; [| discriminate Hlen].
    split; [reflexivity |].
    split; [| split]; intros; now contradiction.
  - pose proof (from_records_same_keys vehicle_columns eq_refl (r :: records)
                  ltac:(discriminate) Hkeys) as Hframe.
    split; [rewrite Hframe; unfold len; cbn [data];
            now rewrite length_map |].
    split; [intros _; now rewrite Hframe |]. split.
    + intros ids _ Hids. rewrite <- Hids, <- Hid.
      apply (column_same_keys vehicle_columns eq_refl (r :: records)
               ltac:(discriminate) Hkeys "id" 0 eq_refl).
    + intros plates _ Hplates. rewrite <- Hplates, <- Hlp.
      apply (column_same_keys vehicle_columns eq_refl (r :: records)
               ltac:(discriminate) Hkeys "license_plate" 6 eq_refl).
Qed.

Lemma fetch_vehicles_rows_witness :
  exists df,
    fetch_vehicles (answer 200 two_vehicles) = (Ok df, [])
    /\ len df = 2%nat
    /\ columns df = vehicle_columns
    /\ column df "id" = Ok [VStr "v1"; VStr "v2"].
Proof.
  destruct (fetch_vehicles_rows
              {| status_code := 200; json := Ok two_vehicles |}
              [("data", VList [VDict [("id", VStr "v1");
                                      ("name", VStr "Truck 1");
                                      ("licensePlate", VStr "ABC-1")];
                               VDict [("id", VStr "v2")]])]
              [VDict [("id", VStr "v1"); ("name", VStr "Truck 1");
                      ("licensePlate", VStr "ABC-1")];
               VDict [("id", VStr "v2")]])
    as (df & Hdf & Hlen & Hcols & Hids & _).
  - left. reflexivity.
  - reflexivity.
  - reflexivity.
  - repeat constructor; eexists; reflexivity.
  - exists df. split; [exact Hdf |]. split; [exact Hlen |].
    split; [apply Hcols; discriminate |].
    apply (Hids ["v1"; "v2"]); [discriminate | reflexivity].
Defined.

Lemma mapM_raises {A B} (f : A -> outcome B) (l : list A) (x : A) (e : exn) :
  In x l -> f x = Raise e -> exists e', mapM f l = Raise e'.
Proof.
  intros Hin Hx. induction l as [| y l IH]; [contradiction |]. cbn.
  destruct (f y) as [b | e0] eqn:Hy; cbn; [| eauto].
  destruct Hin as [-> | Hin]; [congruence |].
  destruct (IH Hin) as [e' ->]. cbn. eauto.
Qed.

Lemma mapM_length {A B} (f : A -> outcome B) (l : list A) (bs : list B) :
  mapM f l = Ok bs -> List.length bs = List.length l.
Proof.
  revert bs. induction l as [| x l IH]; intros bs; cbn.
  - now intros [= <-].
  - destruct (f x) as [b | e]; cbn; [| discriminate].
    destruct (mapM f l) as [bs' | e]; cbn; [| discriminate].
    intros [= <-]. cbn. now rewrite (IH bs' eq_refl).
Qed.

Lemma mapM_total {A B} (f : A -> outcome B) (l : list A) :
  Forall (fun x => exists b, f x = Ok b) l -> exists bs, mapM f l = Ok bs.
Proof.
  induction 1 as [| x l [b Hb] _ [bs IH]]; cbn; [eauto |].
  rewrite Hb, IH. cbn. eauto.
Qed.

Lemma pair_records_keys (k1 from1 k2 from2 : string) (items : list value) :
  forall records,
    mapM (pair_record k1 from1 k2 from2) items = Ok records ->
    Forall (fun r => map fst r = [k1; k2]) records.
Proof.
  induction items as [| d items IH]; intros records; cbn.
  - intros [= <-]. constructor.
  - destruct (pair_record k1 from1 k2 from2 d) as [r | e] eqn:Hr;
      cbn; [| discriminate].
    destruct (mapM (pair_record k1 from1 k2 from2) items) as [rs | e];
      cbn; [| discriminate].
    intros [= <-]. constructor; [| now apply IH].
    unfold pair_record in Hr.
    destruct (subscript d from1); cbn in Hr; [| discriminate].
    destruct (subscript d from2); cbn in Hr; [| discriminate].
    now injection Hr as <-.
Qed.

(** X8. The drivers table is all or nothing.  On an answer whose [data]
    lists the driver objects, the table has one row per driver when every
    object has an [id] and a [name]; a single object without a [name]
    (which [fetch_vehicles] would tolerate) leaves the table empty, with
    one error logged. *)
Theorem fetch_drivers_all_or_nothing :
  forall (response : response) (body : list (string * value))
         (items : list value),
    (status_code response < 400 \/ 600 <= status_code response)%Z ->
    json response = Ok (VDict body) ->
    field body "data" (VList []) = VList items ->
    (Forall (fun d => exists kv i n,
                 d = VDict kv /\ lookup kv "id" = Some i
                 /\ lookup kv "name" = Some n) items ->
     exists df,
       fetch_drivers (Ok response) = (Ok df, [])
       /\ len df = List.length items)
    /\ (forall kv, In (VDict kv) items -> lookup kv "name" = None ->
        exists e,
          fetch_drivers (Ok response)
          = (Ok no_frame, [Log ERROR "Error fetching drivers: " (Some e)])).
Proof.
  intros response body items Hstatus Hjson Hdata.
  assert (Hok : raise_for_status response = Ok tt).
  { unfold raise_for_status.
    destruct Hstatus as [Hlow | Hhigh].
    - apply Z.ltb_lt in Hlow. rewrite Z.leb_antisym, Hlow. reflexivity.
    - apply Z.leb_le in Hhigh. rewrite Z.ltb_antisym, Hhigh.
      now rewrite andb_false_r. }
  assert (Hrun : forall m,
             mapM (pair_record "id" "id" "name" "name") items = m ->
             fetch_drivers (Ok response)
             = match m with
               | Ok records => (Ok (from_records records), [])
               | Raise e =>
                 (Ok no_frame,
                  [Log ERROR "Error fetching drivers: " (Some e)])
               end).
  { intros m Hm. unfold fetch_drivers, fetch_pairs.
    rewrite try_except_all. unfold lift.
    cbn [bindM app]. rewrite Hok. cbn [bindM app]. rewrite Hjson.
    cbn [bindM app get]. fold (field body "data" (VList [])). rewrite Hdata.
    cbn [bindM app iterate]. rewrite Hm. now destruct m. }
  split.
  - intros Hall.
    destruct (mapM_total (pair_record "id" "id" "name" "name") items)
      as [records Hrecords].
    { eapply Forall_impl; [| exact Hall].
      intros d (kv & i & n & -> & Hi & Hn).
      unfold pair_record, subscript. rewrite Hi, Hn. cbn. eauto. }
    rewrite (Hrun _ Hrecords). eexists. split; [reflexivity |].
    rewrite <- (mapM_length _ _ _ Hrecords).
    pose proof (pair_records_keys _ _ _ _ _ _ Hrecords) as Hkeys.
    destruct records as [| r records]; [reflexivity |].
    rewrite (from_records_same_keys ["id"; "name"] eq_refl (r :: records)
               ltac:(discriminate) Hkeys).
    unfold len. cbn [data]. apply length_map.
  - intros kv Hin Hname.
    destruct (mapM_raises (pair_record "id" "id" "name" "name") items
                          (VDict kv)
                          (match lookup kv "id" with
                           | Some _ => KeyError "name"
                           | None => KeyError "id"
                           end) Hin) as [e He].
    { unfold pair_record, subscript. rewrite Hname.
      now destruct (lookup kv "id"). }
    exists e. now rewrite (Hrun _ He).
Qed.

Lemma fetch_drivers_all_or_nothing_witness :
  exists e,
    fetch_drivers
      (answer 200 (VDict [("data", VList [VDict [("id", VInt 1);
                                                  ("name", VStr "Ann")];
                                           VDict [("id", VInt 2)]])]))
    = (Ok no_frame, [Log ERROR "Error fetching drivers: " (Some e)]).
Proof.
  destruct (fetch_drivers_all_or_nothing
              {| status_code := 200;
                 json := Ok (VDict [("data",
                                     VList [VDict [("id", VInt 1);
                                                   ("name", VStr "Ann")];
                                            VDict [("id", VInt 2)]])]) |}
              [("data", VList [VDict [("id", VInt 1); ("name", VStr "Ann")];
                               VDict [("id", VInt 2)]])]
              [VDict [("id", VInt 1); ("name", VStr "Ann")];
               VDict [("id", VInt 2)]]
              (or_introl eq_refl) eq_refl eq_refl) as [_ Hfail].
  apply (Hfail [("id", VInt 2)]).
  - right. now left.
  - reflexivity.
Defined.

Lemma locations_loop_answered (http : value -> reply)
    (vehicle_ids : list value) :
  Forall (fun vid => well_formed (http vid)) vehicle_ids ->
  forall locations,
  exists records,
    locations_loop http vehicle_ids locations = Ok (locations ++ records)%list
    /\ map (fun r => cell_of r "vehicle_id") records
       = answered http vehicle_ids
    /\ Forall (fun r => map fst r = location_columns) records.
Proof.
  induction 1 as [| vid rest (response & Hreply & Hbody) _ IH];
    intros locations; cbn [locations_loop answered filter].
  - exists []. now rewrite app_nil_r.
  - rewrite Hreply. cbn [bind].
    destruct (status_code response =? 200)%Z eqn:Hcode; [| apply IH].
    apply Z.eqb_eq in Hcode. destruct (Hbody Hcode) as (d & ->).
    unfold location_record. cbn [bind get].
    match goal with
    | |- context [locations_loop http rest (locations ++ [?r])%list] =>
      destruct (IH (locations ++ [r])%list) as (records & -> & Hids & Hall);
      exists (r :: records)
    end.
    rewrite <- app_assoc. split; [reflexivity |].
    split; [cbn; now rewrite Hids | now constructor].
Qed.

(** X9. When every location request is answered and the 200 answers carry
    a JSON object, the locations table has exactly one row per vehicle
    answered with 200, in request order, and nothing is logged; the
    vehicles answered otherwise are left out without a trace. *)
Theorem fetch_vehicle_locations_rows :
  forall (http : value -> reply) (vehicle_ids : list value),
    Forall (fun vid => well_formed (http vid)) vehicle_ids ->
    exists df,
      fetch_vehicle_locations http vehicle_ids = (Ok df, [])
      /\ len df = List.length (answered http vehicle_ids)
      /\ (answered http vehicle_ids <> [] ->
          columns df = location_columns
          /\ column df "vehicle_id" = Ok (answered http vehicle_ids)).
Proof.
  intros http vehicle_ids Hall.
  destruct (locations_loop_answered http vehicle_ids Hall [])
    as (records & Hloop & Hids & Hkeys).
  cbn [app] in Hloop.
  unfold fetch_vehicle_locations. rewrite try_except_all. unfold lift.
  rewrite Hloop. cbn [bindM ret app].
  exists (from_records records). split; [reflexivity |].
  rewrite <- Hids.
  destruct records as [| r records].
  - split; [reflexivity |]. intros Hne. now contradiction Hne.
  - pose proof (from_records_same_keys location_columns eq_refl (r :: records)
                  ltac:(discriminate) Hkeys) as Hframe.
    split; [rewrite Hframe; unfold len; cbn [data]; now rewrite !length_map |].
    intros _. split; [now rewrite Hframe |].
    apply (column_same_keys location_columns eq_refl (r :: records)
             ltac:(discriminate) Hkeys "vehicle_id" 0 eq_refl).
Qed.

Lemma fetch_vehicle_locations_rows_witness :
  exists df,
    fetch_vehicle_locations
      (fun vid => match vid with
                  | VStr "v2" => answer 200 (VDict [("latitude", VInt 41)])
                  | _ => answer 404 VNone
                  end)
      [VStr "v1"; VStr "v2"] = (Ok df, [])
    /\ column df "vehicle_id" = Ok [VStr "v2"].
Proof.
  destruct (fetch_vehicle_locations_rows
              (fun vid => match vid with
                          | VStr "v2" =>
                            answer 200 (VDict [("latitude", VInt 41)])
                          | _ => answer 404 VNone
                          end)
              [VStr "v1"; VStr "v2"])
    as (df & Hdf & _ & Hrows).
  - repeat constructor.
    + eexists. split; [reflexivity |]. discriminate.
    + eexists. split; [reflexivity |]. intros _. eexists. reflexivity.
  - exists df. split; [exact Hdf |]. apply Hrows. discriminate.
Defined.

(** *** Days open and the trailing Z *)

Lemma chars_append (s t : string) : chars (s ++ t) = (chars s ++ chars t)%list.
Proof.
  unfold chars. induction s as [| c s IH]; cbn; [reflexivity |].
  now rewrite IH.
Qed.

Lemma rstrip_trailing (s : string) :
  rstrip (s ++ "Z") "Z" = rstrip s "Z".
Proof.
  unfold rstrip, rstrip_by. rewrite chars_append.
  cbn [chars list_ascii_of_string]. now rewrite rev_app_distr.
Qed.

(** X10. A trailing Z is ignored: appending one to a non-empty creation
    date changes neither the days-open value nor what is logged. *)
Theorem days_open_ignores_trailing_Z :
  forall (now : datetime) (s : string),
    s <> EmptyString ->
    _calculate_days_open now (VStr (s ++ "Z"))
    = _calculate_days_open now (VStr s).
Proof.
  intros now s Hs. unfold _calculate_days_open.
  rewrite (truthy_text s Hs).
  assert (Hsz : s ++ "Z" <> EmptyString) by (destruct s; discriminate).
  rewrite (truthy_text _ Hsz). cbn [negb].
  now rewrite rstrip_trailing.
Qed.

Lemma days_open_ignores_trailing_Z_witness :
  _calculate_days_open now_2024_01_31 (VStr "2024-01-01T00:00:00Z")
  = _calculate_days_open now_2024_01_31 (VStr "2024-01-01T00:00:00").
Proof.
  exact (days_open_ignores_trailing_Z now_2024_01_31 "2024-01-01T00:00:00"
           ltac:(discriminate)).
Defined.

(** *** Priority colours *)

Lemma lower_idempotent (c : ascii) : lower (lower c) = lower c.
Proof. destruct c as [[] [] [] [] [] [] [] []]; reflexivity. Qed.

Lemma chars_text (cs : list ascii) : chars (text cs) = cs.
Proof. apply list_ascii_of_string_of_list_ascii. Qed.

Lemma lower_text_idempotent (s : string) :
  lower_text (lower_text s) = lower_text s.
Proof.
  unfold lower_text. rewrite chars_text, map_map. f_equal.
  apply map_ext. intros c. apply lower_idempotent.
Qed.

(** X11. The priority colour depends on the priority only up to letter
    case, and it is red, amber or green exactly for high, medium and low
    (in any case) and grey for every other text. *)
Theorem priority_color_by_case_folded_name :
  forall priority : string,
    get_priority_color (lower_text priority) = get_priority_color priority
    /\ (get_priority_color priority = "#dc3545"
        <-> lower_text priority = "high")
    /\ (get_priority_color priority = "#ffc107"
        <-> lower_text priority = "medium")
    /\ (get_priority_color priority = "#28a745"
        <-> lower_text priority = "low")
    /\ (get_priority_color priority = "#6c757d"
        <-> lower_text priority <> "high"
            /\ lower_text priority <> "medium"
            /\ lower_text priority <> "low").
Proof.
  intros priority. unfold get_priority_color.
  rewrite lower_text_idempotent. split; [reflexivity |].
  cbn [assoc].
  destruct (String.eqb_spec "high" (lower_text priority)) as [<- | Hh].
  { repeat split; try discriminate; try reflexivity;
      intros (H1 & _); now contradiction H1. }
  destruct (String.eqb_spec "medium" (lower_text priority)) as [<- | Hm].
  { repeat split; try discriminate; try reflexivity;
      intros (_ & H2 & _); now contradiction H2. }
  destruct (String.eqb_spec "low" (lower_text priority)) as [<- | Hl].
  { repeat split; try discriminate; try reflexivity;
      intros (_ & _ & H3); now contradiction H3. }
  repeat split; try discriminate; try congruence.
Qed.

(** *** The body of an update *)

Lemma lookup_setitem_eq (d : list (string * value)) (k : string) (v : value) :
  lookup (setitem d k v) k = Some v.
Proof.
  induction d as [| [k' v'] d IH]; cbn.
  - now rewrite String.eqb_refl.
  - destruct (String.eqb_spec k' k) as [-> | Hne]; cbn.
    + now rewrite String.eqb_refl.
    + apply String.eqb_neq in Hne. now rewrite Hne.
Qed.

Lemma lookup_setitem_ne (d : list (string * value)) (k k' : string)
    (v : value) :
  k <> k' -> lookup (setitem d k v) k' = lookup d k'.
Proof.
  intros Hne. induction d as [| [k0 v0] d IH]; cbn.
  - apply String.eqb_neq in Hne. now rewrite Hne.
  - destruct (String.eqb_spec k0 k) as [-> | Hne0]; cbn.
    + apply String.eqb_neq in Hne. now rewrite Hne.
    + now rewrite IH.
Qed.

Lemma lookup_absent (d : list (string * value)) (k : string) :
  ~ In k (map fst d) -> lookup d k = None.
Proof.
  induction d as [| [k' v'] d IH]; cbn; [reflexivity |]. intros Hnot.
  destruct (String.eqb_spec k' k) as [-> | Hne];
    [contradiction Hnot; now left |].
  apply IH. intros Hin. apply Hnot. now right.
Qed.

Lemma lookup_merged (updates : list (string * value)) (k : string) :
  NoDup (map fst updates) ->
  forall d,
    lookup (fold_left (fun d kv => setitem d (fst kv) (snd kv)) updates d) k
    = match lookup updates k with
      | Some v => Some v
      | None => lookup d k
      end.
Proof.
  induction updates as [| [k1 v1] updates IH]; intros Hnodup d; cbn;
    [reflexivity |].
  inversion Hnodup as [| ? ? Hfresh Hrest]; subst.
  rewrite (IH Hrest).
  destruct (String.eqb_spec k1 k) as [-> | Hne].
  - rewrite (lookup_absent _ _ Hfresh). apply lookup_setitem_eq.
  - now rewrite (lookup_setitem_ne _ _ _ _ Hne).
Qed.

(** X12. The body of an update request: every entry of [updates] is sent
    as given, and the order number of the call is sent only when
    [updates] has no [ro_number] of its own, which otherwise replaces
    it. *)
Theorem update_body_entries :
  forall (ro_number : string) (updates : list (string * value)),
    NoDup (map fst updates) ->
    lookup (update_body ro_number updates) "ro_number"
    = Some (field updates "ro_number" (VStr ro_number))
    /\ (forall k, k <> "ro_number" ->
                  lookup (update_body ro_number updates) k = lookup updates k).
Proof.
  intros ro_number updates Hnodup. unfold update_body, field.
  split.
  - rewrite (lookup_merged updates "ro_number" Hnodup).
    now destruct (lookup updates "ro_number").
  - intros k Hk. rewrite (lookup_merged updates k Hnodup).
    destruct (lookup updates k); [reflexivity |]. cbn [lookup].
    destruct (String.eqb_spec "ro_number" k); [congruence | reflexivity].
Qed.

Lemma update_body_entries_witness :
  lookup (update_body "RO-1" [("status", VStr "closed");
                              ("ro_number", VStr "RO-9")]) "ro_number"
  = Some (VStr "RO-9")
  /\ lookup (update_body "RO-1" [("status", VStr "closed")]) "ro_number"
     = Some (VStr "RO-1").
Proof.
  split.
  - refine (proj1 (update_body_entries "RO-1" [("status", VStr "closed");
                                                ("ro_number", VStr "RO-9")]
                                       _)).
    cbn. repeat (constructor; [cbn; intuition discriminate |]). constructor.
  - refine (proj1 (update_body_entries "RO-1" [("status", VStr "closed")] _)).
    cbn. repeat (constructor; [cbn; intuition discriminate |]). constructor.
Defined.

(** *** The write calls and the token *)

Lemma write_call_outcome (what done failed : string) (token : option string)
    (http : value -> reply) (body : value) :
  exists b,
    fst (write_call what done failed token http body) = Ok b
    /\ (b = true <->
        no_token token = false
        /\ exists r, http body = Ok r /\ status_code r = 200%Z)
    /\ (b = true ->
        snd (write_call what done failed token http body) = [Info done])
    /\ (no_token token = true ->
        snd (write_call what done failed token http body) = []).
Proof.
  unfold write_call. destruct (no_token token).
  - exists false. repeat split; try discriminate; intros [? _]; discriminate.
  - destruct (http body) as [r | e].
    + destruct (status_code r =? 200)%Z eqn:Hcode.
      * exists true. apply Z.eqb_eq in Hcode.
        repeat split; try discriminate; eauto.
      * exists false. apply Z.eqb_neq in Hcode.
        repeat split; try discriminate.
        intros (_ & r' & [= <-] & Hr'). contradiction.
    + exists false. repeat split; try discriminate.
      intros (_ & r' & Hr' & _). discriminate.
Qed.

(** X13. Creating and updating an order never raise.  Each returns [True]
    exactly when the object holds a token and the server answers the
    request with status 200, and then logs one INFO record; without a
    token each returns [False] and logs nothing. *)
Theorem write_calls_succeed_on_200 :
  forall (token : option string) (http : value -> reply),
    (forall ro_data : value,
        exists b,
          fst (create_repair_order token http ro_data) = Ok b
          /\ (b = true <->
              no_token token = false
              /\ exists r, http ro_data = Ok r /\ status_code r = 200%Z)
          /\ (b = true ->
              snd (create_repair_order token http ro_data)
              = [Info "RO created successfully"])
          /\ (no_token token = true ->
              snd (create_repair_order token http ro_data) = []))
    /\ (forall (ro_number : string) (updates : list (string * value)),
           exists b,
             fst (update_repair_order token http ro_number updates) = Ok b
             /\ (b = true <->
                 no_token token = false
                 /\ exists r,
                     http (VDict (update_body ro_number updates)) = Ok r
                     /\ status_code r = 200%Z)
             /\ (b = true ->
                 snd (update_repair_order token http ro_number updates)
                 = [Info "RO updated successfully"])
             /\ (no_token token = true ->
                 snd (update_repair_order token http ro_number updates) = [])).
Proof.
  intros token http. split.
  - intros ro_data. apply write_call_outcome.
  - intros ro_number updates. apply write_call_outcome.
Qed.

(** X14. Getting the token never raises, and it yields a token other than
    [None] only from a 200 answer whose JSON object has it under [token];
    nothing is logged then. *)
Theorem token_only_from_200 :
  forall http : reply,
  exists tok,
    result (_get_token http) = Ok tok
    /\ (tok <> VNone ->
        exists r d,
          http = Ok r /\ status_code r = 200%Z
          /\ json r = Ok (VDict d) /\ lookup d "token" = Some tok
          /\ effects (_get_token http) = []).
Proof.
  intros http. unfold _get_token. rewrite try_except_all. unfold lift.
  destruct http as [r | e]; cbn [bindM app].
  2:{ exists VNone. split; [reflexivity |]. intros H. now contradiction H. }
  destruct (status_code r =? 200)%Z eqn:Hcode.
  2:{ exists VNone. split; [reflexivity |]. intros H. now contradiction H. }
  apply Z.eqb_eq in Hcode.
  destruct (json r) as [data | e] eqn:Hjson; cbn [bindM app].
  2:{ exists VNone. split; [reflexivity |]. intros H. now contradiction H. }
  destruct data as [| b | z | x | s | l | d];
    try (exists VNone; split; [reflexivity |];
         intros H; now contradiction H).
  cbn [get]. destruct (lookup d "token") as [tok |] eqn:Htok.
  - exists tok. split; [reflexivity |]. intros _. exists r, d.
    repeat split; try assumption; reflexivity.
  - exists VNone. split; [reflexivity |]. intros H. now contradiction H.
Qed.

Lemma token_only_from_200_witness :
  result (_get_token (answer 200 (VDict [("token", VStr "abc")])))
  = Ok (VStr "abc")
  /\ effects (_get_token (answer 200 (VDict [("token", VStr "abc")]))) = [].
Proof.
  destruct (token_only_from_200 (answer 200 (VDict [("token", VStr "abc")])))
    as (tok & Htok & Honly).
  cbn in Htok. injection Htok as <-.
  split; [reflexivity |].
  destruct (Honly ltac:(discriminate)) as (r & d & _ & _ & _ & _ & Hquiet).
  exact Hquiet.
Defined.

(** *** The session defaults *)

Section Defaults.

Let step (st : list (string * session_value)) (kv : string * session_value) :=
  setdefault st (fst kv) (snd kv).

Lemma present_get (st : list (string * session_value)) (k : string) :
  existsb (fun kv => fst kv =? k) st
  = match session_get st k with Some _ => true | None => false end.
Proof.
  induction st as [| [k' v'] st IH]; cbn; [reflexivity |].
  destruct (k' =? k); [reflexivity | exact IH].
Qed.

Lemma session_get_last (st : list (string * session_value)) (k k' : string)
    (v : session_value) :
  session_get (st ++ [(k, v)]) k'
  = match session_get st k' with
    | Some x => Some x
    | None => if k =? k' then Some v else None
    end.
Proof.
  induction st as [| [k0 v0] st IH]; cbn; [reflexivity |].
  destruct (k0 =? k'); [reflexivity | exact IH].
Qed.

Lemma setdefault_get (st : list (string * session_value)) (k k' : string)
    (v : session_value) :
  session_get (setdefault st k v) k'
  = match session_get st k' with
    | Some x => Some x
    | None => if k =? k' then Some v else None
    end.
Proof.
  unfold setdefault. rewrite present_get.
  destruct (session_get st k) as [x |] eqn:Hk.
  - destruct (session_get st k') eqn:Hk'; [reflexivity |].
    destruct (String.eqb_spec k k') as [-> | _]; [congruence | reflexivity].
  - apply session_get_last.
Qed.

Lemma defaults_get (defaults : list (string * session_value)) (k : string) :
  forall st,
    session_get (fold_left step defaults st) k
    = match session_get st k with
      | Some x => Some x
      | None => session_get defaults k
      end.
Proof.
  induction defaults as [| [k0 v0] defaults IH]; intros st;
    cbn [fold_left session_get].
  - now destruct (session_get st k).
  - rewrite IH. unfold step. cbn [fst snd]. rewrite setdefault_get.
    destruct (session_get st k); [reflexivity |].
    now destruct (k0 =? k).
Qed.

Lemma defaults_fixed (defaults : list (string * session_value)) :
  forall st,
    Forall (fun kv => session_get st (fst kv) <> None) defaults ->
    fold_left step defaults st = st.
Proof.
  induction defaults as [| [k0 v0] defaults IH]; intros st Hall;
    cbn [fold_left]; [reflexivity |].
  apply Forall_cons_iff in Hall. destruct Hall as [Hk0 Hrest].
  assert (Hsame : step st (k0, v0) = st).
  { unfold step, setdefault. cbn [fst snd] in *. rewrite present_get.
    now destruct (session_get st k0). }
  rewrite Hsame. now apply IH.
Qed.

(** X15. Initialising the session never overwrites: a key that is set keeps
    its value, a key that is not set gets its default, and a second
    initialisation changes nothing. *)
Theorem init_session_state_keeps_values :
  forall state : list (string * session_value),
    (forall k v, session_get state k = Some v ->
                 session_get (init_session_state state) k = Some v)
    /\ (forall k, session_get state k = None ->
                  session_get (init_session_state state) k
                  = session_get session_defaults k)
    /\ init_session_state (init_session_state state)
       = init_session_state state.
Proof.
  intros state. unfold init_session_state.
  change (fun st kv => setdefault st (fst kv) (snd kv)) with step.
  split; [| split].
  - intros k v Hk. now rewrite defaults_get, Hk.
  - intros k Hk. now rewrite defaults_get, Hk.
  - apply defaults_fixed. apply Forall_forall. intros [k v] Hin.
    cbn [fst]. rewrite defaults_get.
    destruct (session_get state k); [discriminate |].
    cbn in Hin.
    repeat (destruct Hin as [[= <- <-] | Hin]; [discriminate |]).
    contradiction.
Qed.

End Defaults.

(** *** Alerts and the low-fuel count *)

Lemma row_alerts_count (str_other : value -> string) (cols : list string)
    (rows : list (list value)) :
  List.length (flat_map (row_alerts str_other cols) rows)
  = (List.length (filter (fun r => exceeds (cell cols r "speed_mph") 80) rows)
     + List.length (filter (fun r => under (cell cols r "fuel_percent") 20)
                           rows))%nat.
Proof.
  induction rows as [| r rows IH]; cbn [flat_map filter]; [reflexivity |].
  rewrite length_app, IH. unfold row_alerts.
  destruct (exceeds (cell cols r "speed_mph") 80),
           (under (cell cols r "fuel_percent") 20); cbn; lia.
Qed.

(** X16. Alerts and metrics agree on low fuel.  On a stats table with
    labelled rows and numbers for speed, fuel and engine hours, both are
    produced, and the number of alerts is the number of rows faster than
    80 plus the low-fuel count of the metrics: every vehicle counted as
    low on fuel has its alert. *)
Theorem alerts_match_low_fuel_count :
  forall (str_other : value -> string) (vehicles_df stats_df : DataFrame),
    empty vehicles_df = false ->
    columns stats_df = stats_columns ->
    Forall telemetry_row (data stats_df) ->
    exists (alerts : list string) (m : fleet_metrics) (low : nat),
      generate_alerts str_other stats_df = Ok alerts
      /\ calculate_fleet_metrics vehicles_df stats_df = Ok m
      /\ low_fuel m = int_of_nat low
      /\ List.length alerts
         = (List.length
              (filter (fun r => exceeds (cell stats_columns r "speed_mph") 80)
                      (data stats_df))
            + low)%nat.
Proof.
  intros str_other vehicles_df [cols rows] Hvehicles Hcols Hrows.
  cbn [columns data] in Hcols, Hrows. subst cols.
  assert (Halerts : generate_alerts str_other
                      {| columns := stats_columns; data := rows |}
                    = Ok (flat_map (row_alerts str_other stats_columns) rows)).
  { unfold generate_alerts.
    assert (Hcol : forall c i,
               index_of c stats_columns = Some i ->
               has_column {| columns := stats_columns; data := rows |} c)
      by (intros c i Hi; eexists; now apply (column_at _ _ c i)).
    apply (alerts_loop_appends
             str_other {| columns := stats_columns; data := rows |}
             (Hcol "vehicle_id" 0%nat eq_refl)
             (Hcol "speed_mph" 1%nat eq_refl)
             (Hcol "fuel_percent" 2%nat eq_refl) rows).
    cbn [columns]. eapply Forall_impl; [| exact Hrows].
    intros r (_ & Hs & Hf & _). now split. }
  rewrite Halerts. cbn [data].
  destruct rows as [| row rows].
  - exists [], zero_fleet_metrics, 0%nat.
    unfold calculate_fleet_metrics. rewrite Hvehicles. now repeat split.
  - destruct (fleet_metrics_of_telemetry vehicles_df (row :: rows) Hvehicles
                ltac:(discriminate) Hrows) as (speed & total & ->).
    do 3 eexists. split; [reflexivity |]. split; [reflexivity |].
    split; [reflexivity |]. apply row_alerts_count.
Qed.

Lemma alerts_match_low_fuel_count_witness :
  exists alerts m,
    generate_alerts no_text
      {| columns := stats_columns;
         data := [[VStr "v1"; VInt 90; VInt 15; VInt 0; VInt 0;
                   VStr "moving"]] |} = Ok alerts
    /\ calculate_fleet_metrics
         one_vehicle
         {| columns := stats_columns;
            data := [[VStr "v1"; VInt 90; VInt 15; VInt 0; VInt 0;
                      VStr "moving"]] |} = Ok m
    /\ List.length alerts = 2%nat /\ low_fuel m = VInt 1.
Proof.
  destruct (alerts_match_low_fuel_count
              no_text one_vehicle
              {| columns := stats_columns;
                 data := [[VStr "v1"; VInt 90; VInt 15; VInt 0; VInt 0;
                           VStr "moving"]] |})
    as (alerts & m & low & Ha & Hm & _ & _).
  - reflexivity.
  - reflexivity.
  - constructor; [| constructor].
    split; [left; reflexivity |]. repeat split; constructor.
  - exists alerts, m. split; [exact Ha |]. split; [exact Hm |].
    cbn in Ha, Hm. injection Ha as <-. injection Hm as <-.
    split; reflexivity.
Defined.

(** *** Generated order numbers *)

Section Digits.

Let f (acc : N) (c : ascii) : N := (10 * acc + (code c - 48))%N.

Lemma value_linear (l : list ascii) :
  forall a,
    fold_left f l a
    = (a * 10 ^ N.of_nat (List.length l) + fold_left f l 0)%N.
Proof.
  induction l as [| c l IH]; intros a; cbn [fold_left List.length].
  - cbn. lia.
  - rewrite (IH (f a c)), (IH (f 0%N c)).
    rewrite Nat2N.inj_succ, N.pow_succ_r'. unfold f. nia.
Qed.

Lemma code_of_digit (n : N) :
  (code (ascii_of_N (48 + n mod 10)) - 48 = n mod 10)%N.
Proof.
  unfold code. rewrite N_ascii_embedding.
  - rewrite N.add_comm. apply N.add_sub.
  - pose proof (N.mod_upper_bound n 10 ltac:(discriminate)) as Hlt.
    apply N.lt_trans with (48 + 10)%N; [| reflexivity].
    now apply N.add_lt_mono_l.
Qed.

Lemma value_of_digit (n : N) :
  f 0%N (ascii_of_N (48 + n mod 10)) = (n mod 10)%N.
Proof. unfold f. rewrite code_of_digit. apply N.add_0_l. Qed.

Lemma value_digits_fuel (fuel : nat) :
  forall n acc,
    (n < 10 ^ N.of_nat fuel)%N ->
    fold_left f (digits_fuel fuel n acc) 0%N
    = (n * 10 ^ N.of_nat (List.length acc) + fold_left f acc 0)%N.
Proof.
  induction fuel as [| fuel IH]; intros n acc Hn; cbn [digits_fuel].
  - cbn in Hn. assert (n = 0%N) by lia. subst. lia.
  - rewrite Nat2N.inj_succ, N.pow_succ_r' in Hn.
    destruct (N.ltb_spec n 10) as [Hsmall | Hbig].
    + cbn [fold_left]. rewrite value_linear, value_of_digit.
      rewrite N.mod_small by exact Hsmall. reflexivity.
    + rewrite IH by (apply N.Div0.div_lt_upper_bound; lia).
      cbn [fold_left List.length]. rewrite (value_linear acc (f 0%N _)).
      rewrite value_of_digit.
      rewrite Nat2N.inj_succ, N.pow_succ_r'.
      pose proof (N.div_mod' n 10). nia.
Qed.

Lemma value_zeros (k : nat) (cs : list ascii) :
  fold_left f (repeat "0"%char k ++ cs)%list 0%N = fold_left f cs 0%N.
Proof. induction k as [| k IH]; [reflexivity | exact IH]. Qed.

(** The digits of a generated number read back as the number. *)
Lemma format_04d_value (n : N) : digits_value (format_04d n) = n.
Proof.
  unfold digits_value, format_04d. fold f.
  rewrite chars_append, !chars_text, value_zeros.
  unfold str_nat. rewrite chars_text, value_digits_fuel; [cbn; lia |].
  destruct n as [| p]; [reflexivity |].
  rewrite Nat2N.inj_succ, N2Nat.id.
  apply N.lt_le_trans with (2 ^ N.succ (N.log2 (N.pos p)))%N.
  - apply N.log2_spec. reflexivity.
  - apply N.pow_le_mono_l. lia.
Qed.

End Digits.

Lemma processed_ro_number (now : datetime) (n : nat)
    (d : list (string * value)) (row : list (string * value)) :
  result (processed_ro now n (VDict d)) = Ok row ->
  lookup row "ro_number"
  = Some (field d "ro_number"
                (VStr ("RO-" ++ format_04d (N.of_nat n + 1)))).
Proof.
  intros H. unfold processed_ro in H.
  repeat (apply bindM_ok in H; destruct H as [? [? H]]).
  repeat match goal with
         | E : result (lift (get (VDict d) _ _)) = Ok _ |- _ =>
           unfold lift, result in E; cbn [fst get] in E; injection E as E
         end.
  cbn in H. injection H as <-. subst. reflexivity.
Qed.

(** X17. Generated order numbers do not collide with each other: two raw
    records without an [ro_number], processed at different positions of a
    batch, get different numbers, and the digits of a generated number
    read back as its position plus one. *)
Theorem generated_ro_numbers_differ :
  forall (now1 now2 : datetime) (n m : nat) (d1 d2 : list (string * value))
         (row1 row2 : list (string * value)),
    lookup d1 "ro_number" = None ->
    lookup d2 "ro_number" = None ->
    result (processed_ro now1 n (VDict d1)) = Ok row1 ->
    result (processed_ro now2 m (VDict d2)) = Ok row2 ->
    lookup row1 "ro_number"
    = Some (VStr ("RO-" ++ format_04d (N.of_nat n + 1)))
    /\ digits_value (format_04d (N.of_nat n + 1)) = (N.of_nat n + 1)%N
    /\ (n <> m -> lookup row1 "ro_number" <> lookup row2 "ro_number").
Proof.
  intros now1 now2 n m d1 d2 row1 row2 H1 H2 Hrow1 Hrow2.
  rewrite (processed_ro_number _ _ _ _ Hrow1),
          (processed_ro_number _ _ _ _ Hrow2).
  unfold field. rewrite H1, H2.
  split; [reflexivity |]. split; [apply format_04d_value |].
  intros Hne Heq. injection Heq as Heq.
  apply (f_equal digits_value) in Heq.
  rewrite !format_04d_value in Heq. lia.
Qed.

Lemma generated_ro_numbers_differ_witness :
  exists row1 row2,
    result (processed_ro now_2024_01_31 0 (VDict [])) = Ok row1
    /\ result (processed_ro now_2024_01_31 1 (VDict [])) = Ok row2
    /\ lookup row1 "ro_number" = Some (VStr "RO-0001")
    /\ lookup row1 "ro_number" <> lookup row2 "ro_number".
Proof.
  do 2 eexists. split; [reflexivity |]. split; [reflexivity |].
  destruct (generated_ro_numbers_differ
              now_2024_01_31 now_2024_01_31 0 1 [] [] _ _
              eq_refl eq_refl eq_refl eq_refl) as (Hnum & _ & Hdiff).
  split; [exact Hnum |]. apply Hdiff. discriminate.
Defined.

(** *** When the days-open calculation and a record fail *)

(** The calculation, case by case, under a naive clock. *)
Lemma days_open_cases (now : datetime) (v : value) :
  tzinfo now = None ->
  (truthy v = false /\ _calculate_days_open now v = (Ok 0%Z, []))
  \/ (truthy v = true /\ (forall s, v <> VStr s)
      /\ _calculate_days_open now v = (Raise (AttributeError "rstrip"), []))
  \/ (exists s, v = VStr s /\ s <> EmptyString
       /\ ((exists created,
               fromisoformat (rstrip s "Z") = Ok created
               /\ tzinfo created = None
               /\ _calculate_days_open now v
                  = (Ok (whole_days created now), []))
           \/ (exists created off,
                  fromisoformat (rstrip s "Z") = Ok created
                  /\ tzinfo created = Some off
                  /\ _calculate_days_open now v = (Raise TypeError, []))
           \/ (exists e,
                  fromisoformat (rstrip s "Z") = Raise e
                  /\ _calculate_days_open now v
                     = (Ok 0%Z,
                        [Log WARNING
                             ("Invalid date format: " ++ rstrip s "Z")
                             None])))).
Proof.
  intros Hnow. unfold _calculate_days_open.
  destruct (truthy v) eqn:Htruthy; cbn [negb]; [| now left].
  right. destruct v as [| b | z | x | s | l | l];
    try (left; repeat split; congruence).
  right. exists s.
  assert (Hs : s <> EmptyString).
  { intros ->. discriminate Htruthy. }
  split; [reflexivity |]. split; [exact Hs |].
  destruct (fromisoformat (rstrip s "Z")) as [created | e] eqn:Hparse.
  - destruct (tzinfo created) as [off |] eqn:Htz.
    + right. left. exists created, off.
      split; [reflexivity |]. split; [exact Htz |].
      assert (Hsub : sub now created = Raise TypeError)
        by (unfold sub; now rewrite Hnow, Htz).
      cbn [bindM lift]. rewrite Hsub. reflexivity.
    + left. exists created. split; [reflexivity |]. split; [exact Htz |].
      destruct (sub_naive now created Hnow Htz) as [delta [Hsub Hd]].
      cbn [bindM lift]. rewrite Hsub. cbn. now rewrite Hd.
  - right. right. exists e. split; [reflexivity |].
    rewrite (fromisoformat_raises _ _ Hparse). reflexivity.
Qed.

(** X18. The days-open calculation raises in two cases only: a truthy
    creation date that is no text has no [rstrip], and a text that parses
    to a time with a UTC offset cannot be subtracted from the naive clock;
    a [ValueError] never escapes. *)
Theorem days_open_raises_only :
  forall (now : datetime) (v : value) (e : exn),
    tzinfo now = None ->
    result (_calculate_days_open now v) = Raise e ->
    (e = AttributeError "rstrip" /\ truthy v = true
     /\ forall s, v <> VStr s)
    \/ (e = TypeError
        /\ exists s created off,
            v = VStr s
            /\ fromisoformat (rstrip s "Z") = Ok created
            /\ tzinfo created = Some off).
Proof.
  intros now v e Hnow Hraise.
  destruct (days_open_cases now v Hnow)
    as [[_ H] | [(Ht & Hv & H) | (s & -> & Hs & Hcases)]].
  - rewrite H in Hraise. discriminate.
  - rewrite H in Hraise. injection Hraise as <-. now left.
  - destruct Hcases as [(c & _ & _ & H) | [(c & off & Hp & Htz & H)
                                           | (e' & _ & H)]];
      rewrite H in Hraise; try discriminate.
    injection Hraise as <-. right. split; [reflexivity |].
    now exists s, c, off.
Qed.

Lemma days_open_raises_only_witness :
  exists s created off,
    VStr "2024-01-01T00:00:00+00:00" = VStr s
    /\ fromisoformat (rstrip s "Z") = Ok created
    /\ tzinfo created = Some off.
Proof.
  destruct (days_open_raises_only
              now_2024_01_31 (VStr "2024-01-01T00:00:00+00:00") TypeError
              eq_refl eq_refl) as [(H & _) | (_ & H)].
  - discriminate H.
  - exact H.
Defined.

(** The value that the calculation returns, when it returns. *)
Lemma days_open_value (now : datetime) (v : value) (d : Z) :
  tzinfo now = None ->
  result (_calculate_days_open now v) = Ok d ->
  d = match v with
      | VStr s =>
        if s =? EmptyString then 0%Z
        else match fromisoformat (rstrip s "Z") with
             | Ok created => whole_days created now
             | Raise _ => 0%Z
             end
      | _ => 0%Z
      end.
Proof.
  intros Hnow Hd.
  destruct (days_open_cases now v Hnow)
    as [[Hf E] | [(_ & _ & E) | (s & -> & Hs & C)]].
  - rewrite E in Hd. injection Hd as <-.
    destruct v as [| b | z | x | s | l | l]; try reflexivity.
    cbn in Hf. apply negb_false_iff in Hf. now rewrite Hf.
  - rewrite E in Hd. discriminate Hd.
  - apply String.eqb_neq in Hs. rewrite Hs.
    destruct C as [(c & P & _ & E) | [(c & o & _ & _ & E) | (e & P & E)]];
      rewrite E in Hd; try discriminate Hd;
      injection Hd as <-; now rewrite P.
Qed.

(** X19. Days open never go down as the clock advances: for the same
    creation date, a later naive clock gives a value at least as large. *)
Theorem days_open_monotone :
  forall (now1 now2 : datetime) (v : value) (d1 d2 : Z),
    tzinfo now1 = None ->
    tzinfo now2 = None ->
    (timestamp now1 <= timestamp now2)%Z ->
    result (_calculate_days_open now1 v) = Ok d1 ->
    result (_calculate_days_open now2 v) = Ok d2 ->
    (d1 <= d2)%Z.
Proof.
  intros now1 now2 v d1 d2 Hn1 Hn2 Hle H1 H2.
  rewrite (days_open_value now1 v d1 Hn1 H1),
          (days_open_value now2 v d2 Hn2 H2).
  destruct v as [| b | z | x | s | l | l]; try lia.
  destruct (s =? EmptyString); [lia |].
  destruct (fromisoformat (rstrip s "Z")) as [created | e]; [| lia].
  unfold whole_days. apply Z.div_le_mono; lia.
Qed.

Lemma days_open_monotone_witness :
  result (_calculate_days_open now_2024_01_31
                               (VStr "2024-01-01T00:00:00Z")) = Ok 30%Z
  /\ result (_calculate_days_open (at_midnight 2024 2 1)
                                  (VStr "2024-01-01T00:00:00Z")) = Ok 31%Z
  /\ (30 <= 31)%Z.
Proof.
  split; [reflexivity |]. split; [reflexivity |].
  exact (days_open_monotone
           now_2024_01_31 (at_midnight 2024 2 1)
           (VStr "2024-01-01T00:00:00Z") 30 31
           eq_refl eq_refl ltac:(vm_compute; discriminate) eq_refl eq_refl).
Defined.

Lemma days_open_dated (now : datetime) (v : value) :
  tzinfo now = None -> dated v ->
  exists d, result (_calculate_days_open now v) = Ok d.
Proof.
  intros Hnow Hdated.
  destruct (days_open_cases now v Hnow)
    as [[_ E] | [(Ht & Hv & E) | (s & -> & Hs & C)]].
  - rewrite E. eexists. reflexivity.
  - destruct Hdated as [Hf | (s & -> & _)]; [congruence |].
    now contradiction (Hv s).
  - destruct C as [(c & _ & _ & E) | [(c & o & P & Htz & E) | (e & _ & E)]];
      try (rewrite E; eexists; reflexivity).
    destruct Hdated as [Hf | (s' & [= <-] & Hnaive)].
    + rewrite (truthy_text s Hs) in Hf. discriminate.
    + rewrite (Hnaive c P) in Htz. discriminate.
Qed.

Lemma joined_or_listed (d : list (string * value)) (k : string)
    (other : outcome value) :
  listed (field d k VNone) ->
  (exists v, other = Ok v) ->
  exists v, joined_or (VDict d) k other = Ok v.
Proof.
  intros Hlisted [w ->]. unfold joined_or. cbn [get bind].
  fold (field d k VNone). fold (field d k (VList [])).
  destruct Hlisted as [Hnot | [items Hitems]].
  - destruct (field d k VNone) as [| | | | | l |] eqn:Hf; eauto.
    now contradiction (Hnot l).
  - rewrite Hitems.
    assert (Hsame : field d k (VList []) = VList (map VStr items)).
    { unfold field in *. destruct (lookup d k); [exact Hitems |].
      discriminate Hitems. }
    rewrite Hsame, join_values_texts. cbn. eauto.
Qed.

Lemma float_field_costed (d : list (string * value)) (k : string) :
  costed (field d k (VInt 0)) ->
  exists x, float_field (VDict d) k = Ok (VFloat x).
Proof.
  intros [x Hx]. unfold float_field. cbn [get bind].
  fold (field d k (VInt 0)). rewrite Hx. cbn. eauto.
Qed.

(** X20. A well-formed raw record is always normalised.  When the record
    is a JSON object whose creation date is absent, empty or a text
    without UTC offset (parseable or not), whose tasks and parts are no
    lists or lists of texts, and whose four cost and hour entries are
    absent or convertible by [float], processing returns a record with
    the keys of the repair-order table. *)
Theorem processed_ro_succeeds :
  forall (now : datetime) (n : nat) (d : list (string * value)),
    tzinfo now = None ->
    dated (field d "created_date" (VStr EmptyString)) ->
    listed (field d "tasks" VNone) ->
    listed (field d "parts_needed" VNone) ->
    costed (field d "total_cost" (VInt 0)) ->
    costed (field d "labor_hours" (VInt 0)) ->
    costed (field d "parts_cost" (VInt 0)) ->
    costed (field d "labor_cost" (VInt 0)) ->
    exists row,
      result (processed_ro now n (VDict d)) = Ok row /\ ro_record row.
Proof.
  intros now n d Hnow Hdate Htasks Hparts Htc Hlh Hpc Hlc.
  destruct (days_open_dated now _ Hnow Hdate) as [days Hdays].
  destruct (joined_or_listed d "tasks"
              (get (VDict d) "tasks" (VStr EmptyString)) Htasks)
    as [tasks Ht]; [cbn; eauto |].
  destruct (joined_or_listed d "parts_needed" (Ok (VStr EmptyString)) Hparts)
    as [parts Hp]; [eauto |].
  destruct (float_field_costed d _ Htc) as [tc Etc].
  destruct (float_field_costed d _ Hlh) as [lh Elh].
  destruct (float_field_costed d _ Hpc) as [pc Epc].
  destruct (float_field_costed d _ Hlc) as [lc Elc].
  assert (Hrow : exists row, result (processed_ro now n (VDict d)) = Ok row).
  { unfold processed_ro. rewrite Ht, Hp, Etc, Elh, Epc, Elc.
    repeat (rewrite result_bindM; cbn [result lift fst get]).
    fold (field d "created_date" (VStr EmptyString)).
    rewrite Hdays.
    repeat (rewrite result_bindM; cbn [result lift fst get]).
    eexists. reflexivity. }
  destruct Hrow as [row Hrow]. exists row. split; [exact Hrow |].
  exact (processed_ro_record _ _ _ _ Hrow).
Qed.

Lemma processed_ro_succeeds_witness :
  exists row,
    result (processed_ro now_2024_01_31 0
                         (VDict [("created_date", VStr "not-a-date");
                                 ("tasks", VList [VStr "A"; VStr "B"]);
                                 ("total_cost", VStr "12.5")])) = Ok row
    /\ ro_record row.
Proof.
  apply (processed_ro_succeeds
           now_2024_01_31 0
           [("created_date", VStr "not-a-date");
            ("tasks", VList [VStr "A"; VStr "B"]);
            ("total_cost", VStr "12.5")]).
  - reflexivity.
  - right. exists "not-a-date". split; [reflexivity |]. discriminate.
  - right. exists ["A"; "B"]. reflexivity.
  - left. discriminate.
  - eexists. reflexivity.
  - eexists. reflexivity.
  - eexists. reflexivity.
  - eexists. reflexivity.
Defined.
